(** * On-call compensation calculator: the business logic of [App.tsx]

    A shallow embedding of the calculator engine of [src/App.tsx]: the Easter
    computation, the Czech holiday test, the standard monthly hours, the
    derived wage and rate table, and the [calculation] memo that turns shift
    assignments and work logs into pay figures.

    Modelling conventions.
    - A JavaScript [Date] is modelled by its local calendar fields (full year,
      0-based month, day of month); time of day and time zone play no role in
      the functions embedded here, which only use [getDate], [getMonth],
      [getFullYear], [getDay], [setDate], [isSameDay] and [isWeekend].
    - JavaScript numbers that carry hours, money and rates are modelled by
      exact rationals [Q], compared with [==]; calendar arithmetic is on [Z].
      [%] is the truncating remainder ([Z.rem]), [Math.floor (x / y)] on
      integers is [Z.div].  The code adds and multiplies IEEE doubles: an
      equation between sums of logged hours taken in different orders or
      groupings is therefore stated for hours that are multiples of one half
      ([halfHourLogs], the step of the hours field), whose sums the code
      computes exactly, and comparisons are stated where rounding, being
      monotone, keeps them.
    - A [Date] holds an instant within 100,000,000 days of 1 January 1970.
      What is said of the days of a month is said of months that lie within
      that range ([monthInDateRange]); the two months cut by its ends,
      April -271821 and September 275760, are left out.
    - The string-typed fields [type] and [profile] are kept as strings, since
      the code compares them with [===] against literals and falls through on
      anything else. *)

From Stdlib Require Import ZArith QArith Qminmax Qabs List String Bool Lia.
From Stdlib Require Import Permutation Lqa.
Import ListNotations.

Local Open Scope Z_scope.

(** ** Calendar dates as the code sees them *)

Module JsDate.

Record Date : Type := mkRawDate
  { getFullYear : Z;   (* full year *)
    getMonth    : Z;   (* 0 = January ... 11 = December *)
    getDate     : Z }. (* day of the month, 1-based *)

Definition isLeapYear (y : Z) : bool :=
  ((y mod 4 =? 0) && negb (y mod 100 =? 0)) || (y mod 400 =? 0).

Definition daysInMonth (y m : Z) : Z :=
  if m =? 1 then (if isLeapYear y then 29 else 28)
  else if (m =? 3) || (m =? 5) || (m =? 8) || (m =? 10) then 30
  else 31.

(** Number of days from January 1st to the first of month [m]. *)
Definition daysBeforeMonth (y m : Z) : Z :=
  let feb := if isLeapYear y then 29 else 28 in
  if m <=? 0 then 0
  else if m =? 1 then 31
  else if m =? 2 then 31 + feb
  else if m =? 3 then 62 + feb
  else if m =? 4 then 92 + feb
  else if m =? 5 then 123 + feb
  else if m =? 6 then 153 + feb
  else if m =? 7 then 184 + feb
  else if m =? 8 then 215 + feb
  else if m =? 9 then 245 + feb
  else if m =? 10 then 276 + feb
  else 306 + feb.

(** ECMAScript [DayFromYear]: day number of January 1st, 1970 being 0. *)
Definition dayFromYear (y : Z) : Z :=
  365 * (y - 1970) + (y - 1969) / 4 - (y - 1901) / 100 + (y - 1601) / 400.

(** Day number of a date (ECMAScript [Day] of its time value). *)
Definition dayNumber (dt : Date) : Z :=
  dayFromYear (getFullYear dt) + daysBeforeMonth (getFullYear dt) (getMonth dt)
  + getDate dt - 1.

(** [getDay]: 0 = Sunday ... 6 = Saturday (ECMAScript [WeekDay]). *)
Definition getDay (dt : Date) : Z := (dayNumber dt + 4) mod 7.

(** date-fns [isWeekend]. *)
Definition isWeekend (dt : Date) : bool :=
  let day := getDay dt in (day =? 0) || (day =? 6).

(** date-fns [isSameDay]: same calendar day. *)
Definition isSameDay (a b : Date) : bool :=
  (getFullYear a =? getFullYear b) && (getMonth a =? getMonth b)
  && (getDate a =? getDate b).

Definition validDate (dt : Date) : bool :=
  (0 <=? getMonth dt) && (getMonth dt <=? 11)
  && (1 <=? getDate dt) && (getDate dt <=? daysInMonth (getFullYear dt) (getMonth dt)).

Definition prevMonth (y m : Z) : Z * Z :=
  if m <=? 0 then (y - 1, 11) else (y, m - 1).

Definition nextMonth (y m : Z) : Z * Z :=
  if 11 <=? m then (y + 1, 0) else (y, m + 1).

(** Day-of-month overflow as [MakeDay] resolves it: a day below 1 borrows
    from the preceding months, a day past the end of the month carries into
    the following ones. *)
Fixpoint normDay (fuel : nat) (y m d : Z) : Date :=
  match fuel with
  | O => mkRawDate y m d
  | S k =>
      if d <? 1 then
        let '(y', m') := prevMonth y m in
        normDay k y' m' (d + daysInMonth y' m')
      else if daysInMonth y m <? d then
        let '(y', m') := nextMonth y m in
        normDay k y' m' (d - daysInMonth y m)
      else mkRawDate y m d
  end.

(** [dt.setDate(d)]: same year and month, day [d], then normalised. *)
Definition setDate (dt : Date) (d : Z) : Date :=
  normDay (S (Z.to_nat (Z.abs d))) (getFullYear dt) (getMonth dt) d.

(** [new Date(year, month, day)].  A year from 0 to 99 means 1900 + year
    (ECMAScript Date constructor); the month is folded into 0..11 with the
    year adjusted, and the day is normalised. *)
Definition newDate (year month day : Z) : Date :=
  let yr := if (0 <=? year) && (year <=? 99) then 1900 + year else year in
  setDate (mkRawDate (yr + month / 12) (month mod 12) 1) day.

(** date-fns [startOfMonth] and [endOfMonth] (calendar fields only). *)
Definition startOfMonth (dt : Date) : Date :=
  mkRawDate (getFullYear dt) (getMonth dt) 1.

Definition endOfMonth (dt : Date) : Date :=
  mkRawDate (getFullYear dt) (getMonth dt)
            (daysInMonth (getFullYear dt) (getMonth dt)).

(** ECMAScript time values span 100,000,000 days on either side of
    1 January 1970, from 20 April -271821 to 13 September 275760; outside
    of them a [Date] is an Invalid Date.  [startOfMonth] and [endOfMonth]
    give the fields of the first and the last day of a month whose days all
    lie in that span, which is what [monthInDateRange] requires of the month
    of a date. *)
Definition maxDay : Z := 100000000.

Definition monthInDateRange (dt : Date) : bool :=
  (- maxDay <=? dayNumber (startOfMonth dt))
  && (dayNumber (endOfMonth dt) <? maxDay).

(** date-fns [eachDayOfInterval]: push the current day while it is not past
    the end, stepping with [setDate (getDate () + 1)].  The loop is unrolled
    once per day of the interval. *)
Fixpoint eachDayFrom (fuel : nat) (cur stop : Date) : list Date :=
  match fuel with
  | O => []
  | S k =>
      if dayNumber cur <=? dayNumber stop
      then cur :: eachDayFrom k (setDate cur (getDate cur + 1)) stop
      else []
  end.

Definition eachDayOfInterval (start stop : Date) : list Date :=
  eachDayFrom (Z.to_nat (dayNumber stop - dayNumber start + 1)) start stop.

End JsDate.

Import JsDate.

(** ** Business logic and utilities *)

Definition getEasterSunday (year : Z) : Date :=
  let a := Z.rem year 19 in
  let b := year / 100 in
  let c := Z.rem year 100 in
  let d := b / 4 in
  let e := Z.rem b 4 in
  let f := (b + 8) / 25 in
  let g := (b - f + 1) / 3 in
  let h := Z.rem (19 * a + b - d - g + 15) 30 in
  let i := c / 4 in
  let k := Z.rem c 4 in
  let l := Z.rem (32 + 2 * e + 2 * i - h - k) 7 in
  let m := (a + 11 * h + 22 * l) / 451 in
  let month := (h + l - 7 * m + 114) / 31 - 1 in
  let day := Z.rem (h + l - 7 * m + 114) 31 + 1 in
  newDate year month day.

(** The table of fixed holidays, as (day, 0-based month). *)
Definition fixedHolidays : list (Z * Z) :=
  [ (1, 0); (1, 4); (8, 4); (5, 6); (6, 6); (28, 8);
    (28, 9); (17, 10); (24, 11); (25, 11); (26, 11) ].

Definition isCzechHoliday (date : Date) : bool :=
  let d := getDate date in
  let m := getMonth date in
  let y := getFullYear date in
  if existsb (fun h => (fst h =? d) && (snd h =? m)) fixedHolidays then true
  else
    let easterSunday := getEasterSunday y in
    let goodFriday := setDate easterSunday (getDate easterSunday - 2) in
    if isSameDay date goodFriday then true
    else
      let easterMonday := setDate easterSunday (getDate easterSunday + 1) in
      if isSameDay date easterMonday then true
      else false.

Definition calculateStandardMonthlyHours (date : Date) : Z :=
  let start := startOfMonth date in
  let stop := endOfMonth date in
  let days := eachDayOfInterval start stop in
  let workingDays := filter (fun d => negb (isWeekend d)) days in
  Z.of_nat (List.length workingDays) * 8.

(** ** Types *)

Module SelectedDay.
(** [interface SelectedDay]; [date] stands for [new Date(item.date)]. *)
Record t : Type := mk
  { date : Date;
    type : string }.
End SelectedDay.

Module WorkLog.
(** [interface WorkLog]; [date] stands for [new Date(log.date)]. *)
Record t : Type := mk
  { id : string;
    date : Date;
    hours : Q;
    isHolidayOverride : bool }.
End WorkLog.

Record Rates : Type := mkRates
  { onCall : Q;
    otNormal : Q;
    otHoliday : Q }.

(** [interface AppState]; [selectedDate] stands for [currentDate], the date
    parsed from the stored string, and [None] for a [null] override. *)
Record AppState : Type := mkAppState
  { monthlySalary : Q;
    selectedDate : Date;
    monthlyHoursOverride : option Q;
    profile : string;
    customRates : Rates;
    selectedOnCallDates : list SelectedDay.t;
    workLogs : list WorkLog.t }.

(** ** Derived values of the component *)

Local Open Scope Q_scope.

Definition standardMonthlyHours (state : AppState) : Q :=
  inject_Z (calculateStandardMonthlyHours (selectedDate state)).

(** [state.monthlyHoursOverride || standardMonthlyHours]: the right operand is
    taken when the left one is falsy, that is [null] or zero. *)
Definition effectiveMonthlyHours (state : AppState) : Q :=
  match monthlyHoursOverride state with
  | Some q => if Qeq_bool q 0 then standardMonthlyHours state else q
  | None => standardMonthlyHours state
  end.

Definition Qgtb (x y : Q) : bool := negb (Qle_bool x y).

Definition hourlyWage (state : AppState) : Q :=
  if Qgtb (effectiveMonthlyHours state) 0
  then monthlySalary state / effectiveMonthlyHours state
  else 0.

Definition rates (state : AppState) : Rates :=
  if String.eqb (profile state) "custom" then customRates state
  else if String.eqb (profile state) "devops" then mkRates 0.2 0.5 1.5
  else mkRates 0.1 0.5 1.5.

(** ** Calculator engine *)

(** Body of the [forEach] over [selectedOnCallDates]: the new value of
    [totalStandbyHours] after one item. *)
Definition standbyStep (totalStandbyHours : Q) (item : SelectedDay.t) : Q :=
  let date := SelectedDay.date item in
  let isHoliday := isCzechHoliday date in
  let isWe := isWeekend date in
  if String.eqb (SelectedDay.type item) "start" then
    if isHoliday || isWe then totalStandbyHours + 15
    else totalStandbyHours + 7
  else if String.eqb (SelectedDay.type item) "end" then
    totalStandbyHours + 9
  else if String.eqb (SelectedDay.type item) "split" then
    totalStandbyHours + 16
  else if isHoliday || isWe then totalStandbyHours + 24
  else totalStandbyHours + 16.

(** The three counters updated by the [forEach] over [workLogs]. *)
Record WorkTotals : Type := mkWorkTotals
  { accWorkNormal : Q;
    accWorkHoliday : Q;
    accWorkDuration : Q }.

Definition workLogStep (acc : WorkTotals) (log : WorkLog.t) : WorkTotals :=
  let logDate := WorkLog.date log in
  let autoHoliday := isCzechHoliday logDate in
  let isHoliday := autoHoliday || WorkLog.isHolidayOverride log in
  let acc1 :=
    if isHoliday
    then mkWorkTotals (accWorkNormal acc) (accWorkHoliday acc + WorkLog.hours log)
                      (accWorkDuration acc)
    else mkWorkTotals (accWorkNormal acc + WorkLog.hours log) (accWorkHoliday acc)
                      (accWorkDuration acc) in
  mkWorkTotals (accWorkNormal acc1) (accWorkHoliday acc1)
               (accWorkDuration acc1 + WorkLog.hours log).

Module Result.
(** The object returned by the [calculation] memo. *)
Record t : Type := mk
  { paidStandbyHours : Q;
    totalWorkNormal : Q;
    totalWorkHoliday : Q;
    onCallFee : Q;
    overtimeNormalPay : Q;
    overtimeHolidayPay : Q;
    totalExtra : Q;
    hourlyWage : Q }.
End Result.

(** The first loop, started from [totalStandbyHours = 0]. *)
Definition totalStandbyHours (items : list SelectedDay.t) : Q :=
  fold_left standbyStep items 0.

(** The second loop, started from the three counters at 0. *)
Definition workTotals (logs : list WorkLog.t) : WorkTotals :=
  fold_left workLogStep logs (mkWorkTotals 0 0 0).

Definition calculation (state : AppState) : Result.t :=
  let totalStandbyHours := totalStandbyHours (selectedOnCallDates state) in
  let totals := workTotals (workLogs state) in
  let totalWorkNormal := accWorkNormal totals in
  let totalWorkHoliday := accWorkHoliday totals in
  let totalWorkDuration := accWorkDuration totals in
  let paidStandbyHours := Qmax 0 (totalStandbyHours - totalWorkDuration) in
  let onCallFee := paidStandbyHours * hourlyWage state * onCall (rates state) in
  let overtimeNormalPay :=
    totalWorkNormal * hourlyWage state * (1 + otNormal (rates state)) in
  let overtimeHolidayPay :=
    totalWorkHoliday * hourlyWage state * (1 + otHoliday (rates state)) in
  let totalExtra := onCallFee + overtimeNormalPay + overtimeHolidayPay in
  Result.mk paidStandbyHours totalWorkNormal totalWorkHoliday onCallFee
            overtimeNormalPay overtimeHolidayPay totalExtra (hourlyWage state).

(** ** Specification-side definitions

    These follow the wording of the specification and are compared with the
    code above. *)

Local Open Scope Z_scope.

Definition dayNumbers (n : Z) : list Z := map Z.of_nat (seq 1 (Z.to_nat n)).

(** The day numbers 1 .. [daysInMonth] of a month. *)
Definition spec_daysOfMonth (y m : Z) : list Z := dayNumbers (daysInMonth y m).

(** Number of days of the month that are neither Saturday nor Sunday. *)
Definition spec_weekdaysInMonth (y m : Z) : nat :=
  List.length
    (filter (fun d => negb ((getDay (mkRawDate y m d) =? 0)
                            || (getDay (mkRawDate y m d) =? 6)))
            (spec_daysOfMonth y m)).

Definition months : list Z := [0; 1; 2; 3; 4; 5; 6; 7; 8; 9; 10; 11].

(** All dates of calendar year [y]. *)
Definition yearDates (y : Z) : list Date :=
  flat_map (fun m => map (mkRawDate y m) (spec_daysOfMonth y m)) months.

(** Number of dates of calendar year [y] that the code takes for holidays. *)
Definition holidayCount (y : Z) : nat :=
  List.length (filter isCzechHoliday (yearDates y)).

(** The closed set of variants of the specification and the tag each one
    carries in the code. *)
Inductive Variant : Type := VFull | VStart | VEnd | VSplit.

Definition variantTag (v : Variant) : string :=
  match v with
  | VFull => "full"
  | VStart => "start"
  | VEnd => "end"
  | VSplit => "split"
  end.

Definition recognizedTag (s : string) : bool :=
  existsb (String.eqb s) (map variantTag [VFull; VStart; VEnd; VSplit]).

Local Open Scope Q_scope.

(** The hour table of the Shift Attributor. *)
Definition spec_variantHours (v : Variant) (weekendOrHoliday : bool) : Q :=
  match v with
  | VFull => if weekendOrHoliday then 24 else 16
  | VStart => if weekendOrHoliday then 15 else 7
  | VEnd => 9
  | VSplit => 16
  end.

Definition sumQ (l : list Q) : Q := fold_right Qplus 0 l.

(** Standby hours contributed by one assignment. *)
Definition contribution (item : SelectedDay.t) : Q := standbyStep 0 item.

(** Holiday status of a work-log entry: auto-detected or overridden. *)
Definition spec_isHolidayLog (log : WorkLog.t) : bool :=
  isCzechHoliday (WorkLog.date log) || WorkLog.isHolidayOverride log.

Definition spec_totalWorkedDuration (logs : list WorkLog.t) : Q :=
  sumQ (map WorkLog.hours logs).

Definition spec_workHoliday (logs : list WorkLog.t) : Q :=
  sumQ (map WorkLog.hours (filter spec_isHolidayLog logs)).

Definition spec_workNormal (logs : list WorkLog.t) : Q :=
  sumQ (map WorkLog.hours (filter (fun l => negb (spec_isHolidayLog l)) logs)).

Definition spec_payableStandby (items : list SelectedDay.t)
           (logs : list WorkLog.t) : Q :=
  Qmax 0 (sumQ (map contribution items) - spec_totalWorkedDuration logs).

(** The Compensation Engine contract of the specification. *)
Definition spec_compute (salary effectiveHours : Q) (r : Rates)
           (payableStandby workNormal workHoliday : Q) : Result.t :=
  let wage := if Qgtb effectiveHours 0 then salary / effectiveHours else 0 in
  let standbyFee := payableStandby * wage * onCall r in
  let otNormalPay := workNormal * wage * (1 + otNormal r) in
  let otHolidayPay := workHoliday * wage * (1 + otHoliday r) in
  Result.mk payableStandby workNormal workHoliday standbyFee otNormalPay
            otHolidayPay (standbyFee + otNormalPay + otHolidayPay) wage.

(** Field-wise equality of results, up to equality of rationals. *)
Definition Result_eq (r1 r2 : Result.t) : Prop :=
  Result.paidStandbyHours r1 == Result.paidStandbyHours r2
  /\ Result.totalWorkNormal r1 == Result.totalWorkNormal r2
  /\ Result.totalWorkHoliday r1 == Result.totalWorkHoliday r2
  /\ Result.onCallFee r1 == Result.onCallFee r2
  /\ Result.overtimeNormalPay r1 == Result.overtimeNormalPay r2
  /\ Result.overtimeHolidayPay r1 == Result.overtimeHolidayPay r2
  /\ Result.totalExtra r1 == Result.totalExtra r2
  /\ Result.hourlyWage r1 == Result.hourlyWage r2.

Definition withCustomRates (state : AppState) (cr : Rates) : AppState :=
  mkAppState (monthlySalary state) (selectedDate state)
             (monthlyHoursOverride state) (profile state) cr
             (selectedOnCallDates state) (workLogs state).

Local Open Scope Z_scope.

(** ** Auxiliary definitions for the holiday count

    The holiday test of a year depends on the year only through its Easter
    offset and, for the list of its dates, through its being a leap year;
    the count is computed once for each of the finitely many cases. *)

Local Open Scope Z_scope.

(** The quantity [h + l - 7 * m + 114] of [getEasterSunday], from which the
    month and the day of Easter Sunday are read off. *)
Definition easterOffset (year : Z) : Z :=
  let a := Z.rem year 19 in
  let b := year / 100 in
  let c := Z.rem year 100 in
  let d := b / 4 in
  let e := Z.rem b 4 in
  let f := (b + 8) / 25 in
  let g := (b - f + 1) / 3 in
  let h := Z.rem (19 * a + b - d - g + 15) 30 in
  let i := c / 4 in
  let k := Z.rem c 4 in
  let l := Z.rem (32 + 2 * e + 2 * i - h - k) 7 in
  let m := (a + 11 * h + 22 * l) / 451 in
  h + l - 7 * m + 114.

(** Month and day reached from "March 0" by an offset of [k] days, for
    offsets that stay within March and April. *)
Definition marchPlus (k : Z) : Z * Z :=
  if k <=? 31 then (2, k) else (3, k - 31).

Definition isFixedHoliday (m d : Z) : bool :=
  existsb (fun h => (fst h =? d) && (snd h =? m)) fixedHolidays.

Definition sameMD (a b : Z * Z) : bool :=
  (fst a =? fst b) && (snd a =? snd b).

(** The holiday test on (month, day), given the Easter offset of the year:
    a fixed holiday, two days before Easter Sunday, or one day after it. *)
Definition holidayAt (n : Z) (md : Z * Z) : bool :=
  isFixedHoliday (fst md) (snd md)
  || sameMD md (marchPlus (n - 94)) || sameMD md (marchPlus (n - 91)).

Definition daysInMonthL (leap : bool) (m : Z) : Z :=
  if m =? 1 then (if leap then 29 else 28)
  else if (m =? 3) || (m =? 5) || (m =? 8) || (m =? 10) then 30
  else 31.

Definition yearMD (leap : bool) : list (Z * Z) :=
  flat_map (fun m => map (pair m) (dayNumbers (daysInMonthL leap m))) months.

Definition holidayCountAt (leap : bool) (n : Z) : nat :=
  List.length (filter (holidayAt n) (yearMD leap)).

(** The offsets 114 .. 148, from 22 March to 25 April. *)
Definition easterOffsets : list Z := map Z.of_nat (seq 114 35).

(** ** Sample inputs *)

Definition april2024 : Date := mkRawDate 2024 3 17.

Definition defaultRates : Rates := mkRates 0.2 0.5 1.5.

Definition sampleState (override : option Q) (prof : string)
           (items : list SelectedDay.t) (logs : list WorkLog.t) : AppState :=
  mkAppState 80000 april2024 override prof defaultRates items logs.

(** Tuesday 9 April 2024, Saturday 6 April 2024, Wednesday 10 April 2024. *)
Definition tuesday : Date := mkRawDate 2024 3 9.
Definition saturday : Date := mkRawDate 2024 3 6.
Definition wednesday : Date := mkRawDate 2024 3 10.

(** Good Friday and Easter Monday of 2024, and Easter Sunday between them. *)
Definition goodFriday2024 : Date := mkRawDate 2024 2 29.
Definition easterSunday2024 : Date := mkRawDate 2024 2 31.
Definition easterMonday2024 : Date := mkRawDate 2024 3 1.

(** A tag of the earlier file variant, unknown to [App.tsx]. *)
Definition handoffItem : SelectedDay.t := SelectedDay.mk tuesday "handoff".

Definition items40 : list SelectedDay.t :=
  [SelectedDay.mk saturday "full"; SelectedDay.mk tuesday "full"].

Definition logs10 : list WorkLog.t :=
  [WorkLog.mk "a" (mkRawDate 2024 3 15) 10 false].

Definition logs50 : list WorkLog.t :=
  [WorkLog.mk "a" (mkRawDate 2024 3 15) 30 false;
   WorkLog.mk "b" (mkRawDate 2024 3 16) 20 true].

Definition easterMondayLog : WorkLog.t :=
  WorkLog.mk "c" easterMonday2024 3 false.

Definition scenarioState : AppState :=
  sampleState None "devops" [SelectedDay.mk tuesday "full"] [].

(** ** Auxiliary definitions for the further properties *)

Local Open Scope Z_scope.

(** Number of fixed holidays among the (month, day) pairs of a year. *)
Definition fixedHolidayCountAt (leap : bool) : nat :=
  List.length (filter (fun md => isFixedHoliday (fst md) (snd md)) (yearMD leap)).

(** Number of days that are neither Saturday nor Sunday among [n] consecutive
    days, the first of which falls on weekday [w]. *)
Definition weekdaysFrom (w n : Z) : nat :=
  List.length
    (filter (fun d => negb (((w + (d - 1)) mod 7 =? 0) || ((w + (d - 1)) mod 7 =? 6)))
            (dayNumbers n)).

(** ** Handlers *)

(** [Array.prototype.findIndex]: the index of the first element that
    satisfies [p], or -1. *)
Fixpoint findIndexFrom {A : Type} (p : A -> bool) (l : list A) (k : Z) : Z :=
  match l with
  | [] => -1
  | x :: l' => if p x then k else findIndexFrom p l' (k + 1)
  end.

Definition findIndex {A : Type} (p : A -> bool) (l : list A) : Z :=
  findIndexFrom p l 0.

(** [arr[i] = v] for an index within the array, the only case in which
    [toggleDate] assigns. *)
Fixpoint setAt {A : Type} (l : list A) (i : nat) (v : A) : list A :=
  match l, i with
  | [], _ => []
  | _ :: l', O => v :: l'
  | x :: l', S j => x :: setAt l' j v
  end.

(** [arr.splice(i, 1)]: drop the element at index [i], if there is one. *)
Fixpoint spliceOne {A : Type} (l : list A) (i : nat) : list A :=
  match l, i with
  | [], _ => []
  | _ :: l', O => l'
  | x :: l', S j => x :: spliceOne l' j
  end.

Definition withSelectedOnCallDates (state : AppState)
           (sel : list SelectedDay.t) : AppState :=
  mkAppState (monthlySalary state) (selectedDate state)
             (monthlyHoursOverride state) (profile state) (customRates state)
             sel (workLogs state).

Definition withWorkLogs (state : AppState) (logs : list WorkLog.t) : AppState :=
  mkAppState (monthlySalary state) (selectedDate state)
             (monthlyHoursOverride state) (profile state) (customRates state)
             (selectedOnCallDates state) logs.

(** [toggleDate]: the assignment of the clicked day cycles
    Full -> Start -> End -> Split -> none.  [findIndex] only returns indices
    of the array, so [currentItem] is always defined; the [None] branch
    stands for the unreachable [undefined]. *)
Definition toggleDate (state : AppState) (day : Date) : AppState :=
  let existingIndex :=
    findIndex (fun d => isSameDay (SelectedDay.date d) day)
              (selectedOnCallDates state) in
  let newSelection := selectedOnCallDates state in
  let newSelection :=
    if 0 <=? existingIndex then
      match nth_error newSelection (Z.to_nat existingIndex) with
      | Some currentItem =>
          if String.eqb (SelectedDay.type currentItem) "full" then
            setAt newSelection (Z.to_nat existingIndex)
                  (SelectedDay.mk (SelectedDay.date currentItem) "start")
          else if String.eqb (SelectedDay.type currentItem) "start" then
            setAt newSelection (Z.to_nat existingIndex)
                  (SelectedDay.mk (SelectedDay.date currentItem) "end")
          else if String.eqb (SelectedDay.type currentItem) "end" then
            setAt newSelection (Z.to_nat existingIndex)
                  (SelectedDay.mk (SelectedDay.date currentItem) "split")
          else spliceOne newSelection (Z.to_nat existingIndex)
      | None => newSelection
      end
    else newSelection ++ [SelectedDay.mk day "full"] in
  withSelectedOnCallDates state newSelection.

(** [addWorkLog]; the random identifier and the current date are taken as
    arguments. *)
Definition addWorkLog (state : AppState) (newId : string) (now : Date) : AppState :=
  withWorkLogs state (workLogs state ++ [WorkLog.mk newId now 0%Q false]).

(** The [field] and [value] arguments of [updateWorkLog], paired by type. *)
Inductive WorkLogUpdate : Type :=
| SetId (value : string)
| SetDate (value : Date)
| SetHours (value : Q)
| SetIsHolidayOverride (value : bool).

(** [{ ...log, [field]: value }]. *)
Definition applyUpdate (log : WorkLog.t) (u : WorkLogUpdate) : WorkLog.t :=
  match u with
  | SetId v => WorkLog.mk v (WorkLog.date log) (WorkLog.hours log)
                          (WorkLog.isHolidayOverride log)
  | SetDate v => WorkLog.mk (WorkLog.id log) v (WorkLog.hours log)
                            (WorkLog.isHolidayOverride log)
  | SetHours v => WorkLog.mk (WorkLog.id log) (WorkLog.date log) v
                             (WorkLog.isHolidayOverride log)
  | SetIsHolidayOverride v => WorkLog.mk (WorkLog.id log) (WorkLog.date log)
                                         (WorkLog.hours log) v
  end.

Definition updateWorkLog (state : AppState) (id : string) (u : WorkLogUpdate)
  : AppState :=
  withWorkLogs state
    (map (fun log => if String.eqb (WorkLog.id log) id then applyUpdate log u else log)
         (workLogs state)).

Definition removeWorkLog (state : AppState) (id : string) : AppState :=
  withWorkLogs state
    (filter (fun l => negb (String.eqb (WorkLog.id l) id)) (workLogs state)).



(** ** Calendar rendering helper *)

(** The number of empty cells before the first day in the Monday-first grid
    of [renderCalendar]: [startDay === 0 ? 6 : startDay - 1], where
    [startDay = getDay(days[0])]. *)
Definition calendarOffset (state : AppState) : option Z :=
  let days := eachDayOfInterval (startOfMonth (selectedDate state))
                                (endOfMonth (selectedDate state)) in
  match days with
  | [] => None
  | day0 :: _ =>
      let startDay := getDay day0 in
      Some (if startDay =? 0 then 6 else startDay - 1)
  end.

(** The cells of the grid in order: the empty ones, then the days. *)
Definition calendarCells (state : AppState) : list (option Date) :=
  let days := eachDayOfInterval (startOfMonth (selectedDate state))
                                (endOfMonth (selectedDate state)) in
  match calendarOffset state with
  | Some offset => repeat None (Z.to_nat offset) ++ map Some days
  | None => []
  end.

(** The colour scheme chosen for a day cell. *)
Inductive CellStyle : Type :=
| StyleDefault | StyleTeal | StyleOrange | StyleRose
| StylePurple | StyleBlue | StyleSlate | StyleRed.

Definition cellSelection (state : AppState) (day : Date) : option SelectedDay.t :=
  find (fun d => isSameDay (SelectedDay.date d) day) (selectedOnCallDates state).

Definition cellStyle (state : AppState) (day : Date) : CellStyle :=
  let selection := cellSelection state day in
  let isHoliday := isCzechHoliday day in
  let isWe := isWeekend day in
  match selection with
  | Some sel =>
      if String.eqb (SelectedDay.type sel) "start" then StyleTeal
      else if String.eqb (SelectedDay.type sel) "end" then StyleOrange
      else if String.eqb (SelectedDay.type sel) "split" then StyleRose
      else if isHoliday then StylePurple
      else if isWe then StyleBlue
      else StyleSlate
  | None => if isHoliday then StyleRed else StyleDefault
  end.

(** States that differ in their two lists of entries only. *)
Definition withEntries (state : AppState) (items : list SelectedDay.t)
           (logs : list WorkLog.t) : AppState :=
  withWorkLogs (withSelectedOnCallDates state items) logs.

Definition nonNegativeHours (logs : list WorkLog.t) : Prop :=
  Forall (fun log => (0 <= WorkLog.hours log)%Q) logs.

(** Hours as the hours field steps through them ([min="0" step="0.5"]):
    non-negative multiples of one half, at most the 744 hours of a month.
    The code's floating-point sums of such hours are exact for every array
    it can hold (fewer than 2^32 entries, so a total below 2^52), hence they
    do not depend on order or grouping. *)
Definition halfHourLogs (logs : list WorkLog.t) : Prop :=
  Forall (fun log => exists k : Z,
              (0 <= k <= 1488)%Z /\ (WorkLog.hours log == inject_Z k / 2)%Q) logs.

(** What [toggleDate] puts in the place of an existing assignment: the
    assignment with the next tag of the cycle, or nothing. *)
Definition nextAssignment (item : SelectedDay.t) : list SelectedDay.t :=
  if String.eqb (SelectedDay.type item) "full"
  then [SelectedDay.mk (SelectedDay.date item) "start"]
  else if String.eqb (SelectedDay.type item) "start"
  then [SelectedDay.mk (SelectedDay.date item) "end"]
  else if String.eqb (SelectedDay.type item) "end"
  then [SelectedDay.mk (SelectedDay.date item) "split"]
  else [].

(** No assignment of the list is on the given day. *)
Definition freeDay (sel : list SelectedDay.t) (day : Date) : Prop :=
  forall d, In d sel -> isSameDay (SelectedDay.date d) day = false.

(** ** Loading the stored state *)

(** The elements that the stored [selectedOnCallDates] array may hold: a
    bare date string of the earlier format, standing for the date it parses
    to, or an object with a [date] and a [type]. *)
Inductive Stored : Type :=
| StoredString (d : Date)
| StoredObject (date : Stored) (type : string).

(** The data migration of the state initialiser: when the array is not
    empty and its first element is a string, every element [d] becomes
    [{ date: d, type: 'full' }]. *)
Definition migrate (stored : list Stored) : list Stored :=
  match stored with
  | StoredString _ :: _ => map (fun d => StoredObject d "full") stored
  | _ => stored
  end.

(** The assignment that a stored element is, when its [date] is a string. *)
Definition asSelectedDay (s : Stored) : option SelectedDay.t :=
  match s with
  | StoredObject (StoredString d) t => Some (SelectedDay.mk d t)
  | _ => None
  end.

(** ** The earlier variant of the file

    The second source file is an earlier state of the component, with the
    two tags "full" and "handoff". *)

Module Legacy.

Local Open Scope Q_scope.

Definition standbyStep (totalStandbyHours : Q) (item : SelectedDay.t) : Q :=
  let date := SelectedDay.date item in
  if String.eqb (SelectedDay.type item) "handoff" then totalStandbyHours + 9
  else
    let isHoliday := isCzechHoliday date in
    let isWe := isWeekend date in
    if isHoliday || isWe then totalStandbyHours + 24
    else totalStandbyHours + 16.

Definition totalStandbyHours (items : list SelectedDay.t) : Q :=
  fold_left standbyStep items 0.

Definition toggleDate (state : AppState) (day : Date) : AppState :=
  let existingIndex :=
    findIndex (fun d => isSameDay (SelectedDay.date d) day)
              (selectedOnCallDates state) in
  let newSelection := selectedOnCallDates state in
  let newSelection :=
    if (0 <=? existingIndex)%Z then
      match nth_error newSelection (Z.to_nat existingIndex) with
      | Some currentItem =>
          if String.eqb (SelectedDay.type currentItem) "full" then
            setAt newSelection (Z.to_nat existingIndex)
                  (SelectedDay.mk (SelectedDay.date currentItem) "handoff")
          else spliceOne newSelection (Z.to_nat existingIndex)
      | None => newSelection
      end
    else newSelection ++ [SelectedDay.mk day "full"] in
  withSelectedOnCallDates state newSelection.

End Legacy.

(** Renaming the tag "handoff" of the earlier variant to "end". *)
Definition renameHandoff (item : SelectedDay.t) : SelectedDay.t :=
  if String.eqb (SelectedDay.type item) "handoff"
  then SelectedDay.mk (SelectedDay.date item) "end"
  else item.

Definition legacyTags (items : list SelectedDay.t) : Prop :=
  Forall (fun item => SelectedDay.type item = "full"%string
                      \/ SelectedDay.type item = "handoff"%string) items.

(** The handlers of the profile selector and of the salary field. *)
Definition setProfile (state : AppState) (p : string) : AppState :=
  mkAppState (monthlySalary state) (selectedDate state)
             (monthlyHoursOverride state) p (customRates state)
             (selectedOnCallDates state) (workLogs state).

Definition setMonthlySalary (state : AppState) (salary : Q) : AppState :=
  mkAppState salary (selectedDate state) (monthlyHoursOverride state)
             (profile state) (customRates state)
             (selectedOnCallDates state) (workLogs state).


(** * Properties *)

Example easter_2024 : getEasterSunday 2024 = mkRawDate 2024 2 31.
Proof. reflexivity. Qed.

Example easter_2025 : getEasterSunday 2025 = mkRawDate 2025 3 20.
Proof. reflexivity. Qed.

Example weekday_2024_04_01 : getDay (mkRawDate 2024 3 1) = 1.
Proof. reflexivity. Qed.

Example hours_april_2024 : calculateStandardMonthlyHours (mkRawDate 2024 3 17) = 176.
Proof. reflexivity. Qed.

(** ** Calendar lemmas *)

Section Calendar.

Lemma daysInMonth_bounds y m : 28 <= daysInMonth y m <= 31.
Proof.
  unfold daysInMonth.
  destruct (m =? 1); [destruct (isLeapYear y); lia|].
  destruct ((m =? 3) || (m =? 5) || (m =? 8) || (m =? 10))%bool; lia.
Qed.

Lemma normDay_in_range fuel y m d :
  1 <= d <= daysInMonth y m -> normDay fuel y m d = mkRawDate y m d.
Proof.
  intros [Hlo Hhi]. destruct fuel as [|k]; [reflexivity|]. simpl.
  destruct (Z.ltb_spec d 1); [lia|].
  destruct (Z.ltb_spec (daysInMonth y m) d); [lia|]. reflexivity.
Qed.

Lemma setDate_in_range dt d :
  1 <= d <= daysInMonth (getFullYear dt) (getMonth dt) ->
  setDate dt d = mkRawDate (getFullYear dt) (getMonth dt) d.
Proof. intros H. unfold setDate. now apply normDay_in_range. Qed.

Lemma dayNumber_same_month y m d d' :
  dayNumber (mkRawDate y m d) - dayNumber (mkRawDate y m d') = d - d'.
Proof. unfold dayNumber; simpl. lia. Qed.

Lemma eachDayFrom_month y m : forall n k,
  (k + n = Z.to_nat (daysInMonth y m))%nat ->
  eachDayFrom n (mkRawDate y m (Z.of_nat (S k)))
              (mkRawDate y m (daysInMonth y m))
  = map (fun i => mkRawDate y m (Z.of_nat i)) (seq (S k) n).
Proof.
  induction n as [|n IH]; intros k Hk; [reflexivity|].
  pose proof (daysInMonth_bounds y m) as Hb.
  cbn [eachDayFrom seq map].
  pose proof (dayNumber_same_month y m (Z.of_nat (S k)) (daysInMonth y m)) as Hd.
  destruct (Z.leb_spec (dayNumber (mkRawDate y m (Z.of_nat (S k))))
                       (dayNumber (mkRawDate y m (daysInMonth y m)))); [|lia].
  f_equal.
  destruct n as [|n']; [reflexivity|].
  rewrite setDate_in_range by (cbn [getFullYear getMonth getDate]; lia).
  cbn [getFullYear getMonth getDate].
  replace (Z.of_nat (S k) + 1) with (Z.of_nat (S (S k))) by lia.
  apply IH. lia.
Qed.

Lemma eachDayOfInterval_month dt :
  eachDayOfInterval (startOfMonth dt) (endOfMonth dt)
  = map (mkRawDate (getFullYear dt) (getMonth dt))
        (spec_daysOfMonth (getFullYear dt) (getMonth dt)).
Proof.
  unfold eachDayOfInterval, startOfMonth, endOfMonth, spec_daysOfMonth, dayNumbers.
  rewrite dayNumber_same_month.
  replace (daysInMonth (getFullYear dt) (getMonth dt) - 1 + 1)
    with (daysInMonth (getFullYear dt) (getMonth dt)) by lia.
  rewrite map_map.
  apply (eachDayFrom_month (getFullYear dt) (getMonth dt) _ 0%nat).
  reflexivity.
Qed.

Lemma length_filter_map {A B} (f : A -> B) (p : B -> bool) (l : list A) :
  List.length (filter p (map f l)) = List.length (filter (fun x => p (f x)) l).
Proof.
  induction l as [|x l IH]; [reflexivity|]. simpl.
  destruct (p (f x)); simpl; now rewrite IH.
Qed.

Lemma dayFromYear_succ y :
  dayFromYear (y + 1) = dayFromYear y + (if isLeapYear y then 366 else 365).
Proof.
  unfold dayFromYear, isLeapYear.
  destruct (Z.eqb_spec (y mod 4) 0) as [H4|H4];
    destruct (Z.eqb_spec (y mod 100) 0) as [H100|H100];
    destruct (Z.eqb_spec (y mod 400) 0) as [H400|H400]; cbn [negb andb orb];
    Z.div_mod_to_equations; lia.
Qed.

Lemma daysBeforeMonth_succ y m :
  0 <= m <= 10 ->
  daysBeforeMonth y (m + 1) = daysBeforeMonth y m + daysInMonth y m.
Proof.
  intros Hm.
  assert (Hc : m = 0 \/ m = 1 \/ m = 2 \/ m = 3 \/ m = 4 \/ m = 5 \/ m = 6
               \/ m = 7 \/ m = 8 \/ m = 9 \/ m = 10) by lia.
  unfold daysBeforeMonth, daysInMonth.
  repeat (destruct Hc as [->|Hc]; [cbn; destruct (isLeapYear y); lia|]).
  subst m. cbn. destruct (isLeapYear y); lia.
Qed.

Lemma daysBeforeMonth_december y :
  daysBeforeMonth y 11 + daysInMonth y 11 = if isLeapYear y then 366 else 365.
Proof. unfold daysBeforeMonth, daysInMonth. cbn. destruct (isLeapYear y); lia. Qed.

Lemma prevMonth_dayNumber y m :
  0 <= m <= 11 ->
  dayFromYear (fst (prevMonth y m))
  + daysBeforeMonth (fst (prevMonth y m)) (snd (prevMonth y m))
  + daysInMonth (fst (prevMonth y m)) (snd (prevMonth y m))
  = dayFromYear y + daysBeforeMonth y m
  /\ 0 <= snd (prevMonth y m) <= 11.
Proof.
  intros Hm. unfold prevMonth. destruct (Z.leb_spec m 0); cbn [fst snd].
  - replace m with 0 by lia.
    pose proof (dayFromYear_succ (y - 1)) as Hs.
    replace (y - 1 + 1) with y in Hs by lia.
    pose proof (daysBeforeMonth_december (y - 1)).
    change (daysBeforeMonth y 0) with 0. lia.
  - pose proof (daysBeforeMonth_succ y (m - 1) ltac:(lia)) as Hs.
    replace (m - 1 + 1) with m in Hs by lia. lia.
Qed.

Lemma nextMonth_dayNumber y m :
  0 <= m <= 11 ->
  dayFromYear (fst (nextMonth y m))
  + daysBeforeMonth (fst (nextMonth y m)) (snd (nextMonth y m))
  = dayFromYear y + daysBeforeMonth y m + daysInMonth y m
  /\ 0 <= snd (nextMonth y m) <= 11.
Proof.
  intros Hm. unfold nextMonth. destruct (Z.leb_spec 11 m); cbn [fst snd].
  - replace m with 11 by lia.
    pose proof (dayFromYear_succ y). pose proof (daysBeforeMonth_december y).
    change (daysBeforeMonth (y + 1) 0) with 0. lia.
  - pose proof (daysBeforeMonth_succ y m ltac:(lia)). lia.
Qed.

(** Normalising the day of the month keeps the day number, and the fuel of
    [setDate] is enough to reach a valid date. *)
Lemma normDay_dayNumber fuel : forall y m d,
  0 <= m <= 11 ->
  dayNumber (normDay fuel y m d) = dayFromYear y + daysBeforeMonth y m + d - 1.
Proof.
  induction fuel as [|k IH]; intros y m d Hm; [reflexivity|].
  cbn [normDay].
  destruct (Z.ltb_spec d 1).
  - destruct (prevMonth_dayNumber y m Hm) as [He Hr].
    destruct (prevMonth y m) as [y' m']; cbn [fst snd] in *.
    rewrite IH by assumption. lia.
  - destruct (Z.ltb_spec (daysInMonth y m) d); [|reflexivity].
    destruct (nextMonth_dayNumber y m Hm) as [He Hr].
    destruct (nextMonth y m) as [y' m']; cbn [fst snd] in *.
    rewrite IH by assumption. lia.
Qed.

Lemma normDay_valid fuel : forall y m d,
  0 <= m <= 11 ->
  (d < 1 -> 1 - d <= 28 * Z.of_nat fuel) ->
  (daysInMonth y m < d -> d <= 28 * Z.of_nat fuel + 28) ->
  validDate (normDay fuel y m d) = true.
Proof.
  induction fuel as [|k IH]; intros y m d Hm Hlo Hhi.
  - pose proof (daysInMonth_bounds y m). unfold validDate. cbn.
    repeat (apply andb_true_iff; split); apply Z.leb_le; lia.
  - cbn [normDay]. pose proof (daysInMonth_bounds y m).
    destruct (Z.ltb_spec d 1).
    + destruct (prevMonth_dayNumber y m Hm) as [_ Hr].
      destruct (prevMonth y m) as [y' m']; cbn [fst snd] in *.
      pose proof (daysInMonth_bounds y' m'). apply IH; lia.
    + destruct (Z.ltb_spec (daysInMonth y m) d).
      * destruct (nextMonth_dayNumber y m Hm) as [_ Hr].
        destruct (nextMonth y m) as [y' m']; cbn [fst snd] in *.
        apply IH; lia.
      * unfold validDate. cbn.
        repeat (apply andb_true_iff; split); apply Z.leb_le; lia.
Qed.

Lemma setDate_dayNumber dt d :
  0 <= getMonth dt <= 11 ->
  dayNumber (setDate dt d) = dayNumber dt + (d - getDate dt)
  /\ validDate (setDate dt d) = true.
Proof.
  intros Hm. unfold setDate. split.
  - rewrite normDay_dayNumber by assumption. unfold dayNumber. lia.
  - apply normDay_valid; [assumption|lia|lia].
Qed.

(** The loop of [eachDayOfInterval] over a month stops by its own test: the
    day after the last one listed is past the end of the month. *)
Lemma eachDayOfInterval_month_stops dt :
  0 <= getMonth dt <= 11 ->
  dayNumber (endOfMonth dt)
  < dayNumber (setDate (endOfMonth dt) (getDate (endOfMonth dt) + 1)).
Proof.
  intros Hm.
  destruct (setDate_dayNumber (endOfMonth dt) (getDate (endOfMonth dt) + 1)) as [H _];
    [exact Hm|]. lia.
Qed.

End Calendar.

(** ** Standard monthly hours *)

Lemma calculateStandardMonthlyHours_spec dt :
  calculateStandardMonthlyHours dt
  = 8 * Z.of_nat (spec_weekdaysInMonth (getFullYear dt) (getMonth dt)).
Proof.
  unfold calculateStandardMonthlyHours, spec_weekdaysInMonth.
  rewrite eachDayOfInterval_month, length_filter_map.
  unfold isWeekend. lia.
Qed.

(** ** Easter and the holiday test *)

Lemma getEasterSunday_offset year :
  getEasterSunday year
  = newDate year (easterOffset year / 31 - 1) (Z.rem (easterOffset year) 31 + 1).
Proof. reflexivity. Qed.

Lemma easterOffset_range year : 0 <= year -> 114 <= easterOffset year <= 148.
Proof.
  intros Hy. unfold easterOffset. cbv zeta.
  set (a := Z.rem year 19).
  set (b := year / 100).
  set (c := Z.rem year 100).
  set (h := Z.rem (19 * a + b - b / 4 - (b - (b + 8) / 25 + 1) / 3 + 15) 30).
  set (l := Z.rem (32 + 2 * Z.rem b 4 + 2 * (c / 4) - h - Z.rem c 4) 7).
  assert (Ha : 0 <= a < 19) by (apply Z.rem_bound_pos; lia).
  assert (Hb : 0 <= b) by (apply Z.div_pos; lia).
  assert (Hc : 0 <= c < 100) by (apply Z.rem_bound_pos; lia).
  assert (Hh : 0 <= h < 30).
  { apply Z.rem_bound_pos; [|lia].
    pose proof (Z.div_mod b 4). pose proof (Z.mod_pos_bound b 4).
    pose proof (Z.div_mod (b + 8) 25). pose proof (Z.mod_pos_bound (b + 8) 25).
    pose proof (Z.div_mod (b - (b + 8) / 25 + 1) 3).
    pose proof (Z.mod_pos_bound (b - (b + 8) / 25 + 1) 3). lia. }
  assert (Hl : 0 <= l < 7).
  { apply Z.rem_bound_pos; [|lia].
    assert (0 <= Z.rem b 4 < 4) by (apply Z.rem_bound_pos; lia).
    assert (0 <= Z.rem c 4 < 4) by (apply Z.rem_bound_pos; lia).
    assert (0 <= c / 4) by (apply Z.div_pos; lia). lia. }
  pose proof (Z.div_mod (a + 11 * h + 22 * l) 451).
  pose proof (Z.mod_pos_bound (a + 11 * h + 22 * l) 451). lia.
Qed.

Lemma normDay_borrow k y m d :
  d < 1 -> 1 <= d + daysInMonth (fst (prevMonth y m)) (snd (prevMonth y m)) ->
  normDay (S k) y m d
  = mkRawDate (fst (prevMonth y m)) (snd (prevMonth y m))
              (d + daysInMonth (fst (prevMonth y m)) (snd (prevMonth y m))).
Proof.
  intros H1 H2. cbn [normDay].
  destruct (Z.ltb_spec d 1); [|lia].
  destruct (prevMonth y m) as [y' m']; cbn [fst snd] in *.
  apply normDay_in_range. pose proof (daysInMonth_bounds y' m'). lia.
Qed.

Lemma normDay_carry k y m d :
  daysInMonth y m < d ->
  d - daysInMonth y m <= daysInMonth (fst (nextMonth y m)) (snd (nextMonth y m)) ->
  normDay (S k) y m d
  = mkRawDate (fst (nextMonth y m)) (snd (nextMonth y m)) (d - daysInMonth y m).
Proof.
  intros H1 H2. cbn [normDay]. pose proof (daysInMonth_bounds y m).
  destruct (Z.ltb_spec d 1); [lia|].
  destruct (Z.ltb_spec (daysInMonth y m) d); [|lia].
  destruct (nextMonth y m) as [y' m']; cbn [fst snd] in *.
  apply normDay_in_range. lia.
Qed.

Lemma marchPlus_cases k :
  marchPlus k = (2, k) /\ k <= 31 \/ marchPlus k = (3, k - 31) /\ 31 < k.
Proof. unfold marchPlus. destruct (Z.leb_spec k 31); [left|right]; split; auto. Qed.

Lemma newDate_plain y m d :
  100 <= y -> 0 <= m <= 11 -> 1 <= d <= daysInMonth y m ->
  newDate y m d = mkRawDate y m d.
Proof.
  intros Hy Hm Hd. unfold newDate.
  replace ((0 <=? y) && (y <=? 99))%bool with false
    by (symmetry; apply andb_false_iff; right; apply Z.leb_gt; lia).
  rewrite Z.div_small, Z.mod_small, Z.add_0_r by lia.
  now apply setDate_in_range.
Qed.

Lemma daysInMonth_march y : daysInMonth y 2 = 31.
Proof. reflexivity. Qed.

Lemma daysInMonth_april y : daysInMonth y 3 = 30.
Proof. reflexivity. Qed.

Lemma getEasterSunday_marchPlus y :
  100 <= y ->
  getEasterSunday y
  = mkRawDate y (fst (marchPlus (easterOffset y - 92)))
              (snd (marchPlus (easterOffset y - 92))).
Proof.
  intros Hy. rewrite getEasterSunday_offset.
  pose proof (easterOffset_range y ltac:(lia)) as Hn.
  set (n := easterOffset y) in *.
  rewrite Z.rem_mod_nonneg by lia.
  pose proof (Z.div_mod n 31 ltac:(lia)) as Hdm.
  pose proof (Z.mod_pos_bound n 31 ltac:(lia)) as Hmb.
  destruct (marchPlus_cases (n - 92)) as [[-> Hk]|[-> Hk]]; cbn [fst snd].
  - replace (n / 31 - 1) with 2 by lia.
    rewrite newDate_plain; rewrite ?daysInMonth_march; try lia. f_equal; lia.
  - replace (n / 31 - 1) with 3 by lia.
    rewrite newDate_plain; rewrite ?daysInMonth_april; try lia. f_equal; lia.
Qed.

Lemma setDate_marchPlus y k j :
  1 <= k <= 61 -> 1 <= k + j <= 61 ->
  setDate (mkRawDate y (fst (marchPlus k)) (snd (marchPlus k)))
          (snd (marchPlus k) + j)
  = mkRawDate y (fst (marchPlus (k + j))) (snd (marchPlus (k + j))).
Proof.
  intros Hk Hj.
  destruct (marchPlus_cases k) as [[-> Hk']|[-> Hk']];
    destruct (marchPlus_cases (k + j)) as [[-> Hj']|[-> Hj']]; cbn [fst snd].
  - apply setDate_in_range. cbn [getFullYear getMonth]. rewrite daysInMonth_march. lia.
  - unfold setDate. cbn [getFullYear getMonth].
    rewrite normDay_carry; change (nextMonth y 2) with (y, 3); cbn [fst snd];
      rewrite ?daysInMonth_march, ?daysInMonth_april; try lia.
    f_equal; lia.
  - unfold setDate. cbn [getFullYear getMonth].
    rewrite normDay_borrow; change (prevMonth y 3) with (y, 2); cbn [fst snd];
      rewrite ?daysInMonth_march; try lia.
    f_equal; lia.
  - rewrite setDate_in_range; cbn [getFullYear getMonth];
      rewrite ?daysInMonth_april; try lia.
    f_equal; lia.
Qed.

Lemma isCzechHoliday_holidayAt y m d :
  100 <= y ->
  isCzechHoliday (mkRawDate y m d) = holidayAt (easterOffset y) (m, d).
Proof.
  intros Hy. unfold isCzechHoliday, holidayAt, isFixedHoliday.
  cbn [getFullYear getMonth getDate fst snd].
  pose proof (easterOffset_range y ltac:(lia)) as Hn.
  rewrite getEasterSunday_marchPlus by assumption.
  cbn [getDate].
  replace (snd (marchPlus (easterOffset y - 92)) - 2)
    with (snd (marchPlus (easterOffset y - 92)) + (-2)) by lia.
  rewrite !setDate_marchPlus by lia.
  replace (easterOffset y - 92 + -2) with (easterOffset y - 94) by lia.
  replace (easterOffset y - 92 + 1) with (easterOffset y - 91) by lia.
  unfold isSameDay, sameMD. cbn [getFullYear getMonth getDate fst snd].
  rewrite Z.eqb_refl. cbn [andb].
  destruct (existsb _ fixedHolidays); [reflexivity|]. cbn [orb].
  destruct ((m =? fst (marchPlus (easterOffset y - 94)))
            && (d =? snd (marchPlus (easterOffset y - 94))))%bool; [reflexivity|].
  cbn [orb].
  destruct ((m =? fst (marchPlus (easterOffset y - 91)))
            && (d =? snd (marchPlus (easterOffset y - 91))))%bool; reflexivity.
Qed.

Lemma length_filter_flat_map {A B C} (f : A -> B -> C) (g : A -> list B)
      (p : C -> bool) (q : A * B -> bool) (ms : list A) :
  (forall a b, p (f a b) = q (a, b)) ->
  List.length (filter p (flat_map (fun a => map (f a) (g a)) ms))
  = List.length (filter q (flat_map (fun a => map (pair a) (g a)) ms)).
Proof.
  intros Hpq. induction ms as [|a ms IH]; [reflexivity|].
  cbn [flat_map]. rewrite !filter_app, !length_app, IH, !length_filter_map.
  f_equal. f_equal. apply filter_ext. intros b. apply Hpq.
Qed.

Lemma holidayCount_holidayCountAt y :
  100 <= y -> holidayCount y = holidayCountAt (isLeapYear y) (easterOffset y).
Proof.
  intros Hy. unfold holidayCount, holidayCountAt, yearDates, yearMD.
  apply (length_filter_flat_map (mkRawDate y) (fun m => spec_daysOfMonth y m)).
  intros m d. now apply isCzechHoliday_holidayAt.
Qed.

Lemma holidayCountAt_all :
  forallb (fun n => Nat.eqb (holidayCountAt true n) 13
                    && Nat.eqb (holidayCountAt false n) 13) easterOffsets = true.
Proof. vm_compute. reflexivity. Qed.

Lemma In_easterOffsets n : 114 <= n <= 148 -> In n easterOffsets.
Proof.
  intros Hn. unfold easterOffsets. apply in_map_iff.
  exists (Z.to_nat n). split; [lia|]. apply in_seq. lia.
Qed.

(** From year 100 on, exactly 13 dates of a calendar year are holidays: the
    11 fixed ones, Good Friday and Easter Monday. *)
Theorem holidayCount_13 y : 100 <= y -> holidayCount y = 13%nat.
Proof.
  intros Hy. rewrite holidayCount_holidayCountAt by assumption.
  pose proof (easterOffset_range y ltac:(lia)) as Hn.
  pose proof (proj1 (forallb_forall _ _) holidayCountAt_all _ (In_easterOffsets _ Hn)) as H.
  apply andb_true_iff in H. destruct H as [Ht Hf].
  destruct (isLeapYear y); now apply Nat.eqb_eq.
Qed.

Lemma easterSunday_not_holidayAt_all :
  forallb (fun n => negb (holidayAt n (marchPlus (n - 92)))) easterOffsets = true.
Proof. vm_compute. reflexivity. Qed.

(** From year 100 on, Easter Sunday itself is not a holiday. *)
Lemma easterSunday_not_holiday y :
  100 <= y -> isCzechHoliday (getEasterSunday y) = false.
Proof.
  intros Hy. rewrite getEasterSunday_marchPlus by assumption.
  rewrite isCzechHoliday_holidayAt by assumption.
  pose proof (easterOffset_range y ltac:(lia)) as Hn.
  pose proof (proj1 (forallb_forall _ _) easterSunday_not_holidayAt_all _
                    (In_easterOffsets _ Hn)) as H.
  cbn beta in H. apply negb_true_iff in H.
  now rewrite <- surjective_pairing.
Qed.

(** The known case of 2024: Good Friday on 29 March and Easter Monday on
    1 April are holidays, Easter Sunday on 31 March is not, and the year has
    13 holidays. *)
Lemma holidays_2024 :
  getEasterSunday 2024 = easterSunday2024
  /\ isCzechHoliday goodFriday2024 = true
  /\ isCzechHoliday easterMonday2024 = true
  /\ isCzechHoliday easterSunday2024 = false
  /\ holidayCount 2024 = 13%nat.
Proof. repeat split; vm_compute; reflexivity. Qed.

(** C5 at the years 0 to 99: [new Date(year, month, day)] reads such a year as
    1900 + year, so the Easter Sunday computed for year 50 (27 March by the
    algorithm) is a date of 1950; neither 25 March 50 (two days before) nor
    28 March 50 (one day after) is a holiday, and year 50 has 11 holidays,
    not 13.  From year 100 on the count is 13 ([holidayCount_13]). *)
Theorem movable_holidays_missed_in_year_50 :
  easterOffset 50 = 119
  /\ getEasterSunday 50 = mkRawDate 1950 2 27
  /\ isCzechHoliday (mkRawDate 50 2 25) = false
  /\ isCzechHoliday (mkRawDate 50 2 28) = false
  /\ holidayCount 50 = 11%nat.
Proof. repeat split; vm_compute; reflexivity. Qed.

(** ** Sums computed by the two loops *)

Local Open Scope Q_scope.

Lemma sumQ_cons x l : sumQ (x :: l) = x + sumQ l.
Proof. reflexivity. Qed.

Lemma standbyStep_add total item :
  standbyStep total item == total + contribution item.
Proof.
  unfold contribution, standbyStep.
  destruct (String.eqb (SelectedDay.type item) "start");
    [destruct (isCzechHoliday _ || isWeekend _)%bool; ring|].
  destruct (String.eqb (SelectedDay.type item) "end"); [ring|].
  destruct (String.eqb (SelectedDay.type item) "split"); [ring|].
  destruct (isCzechHoliday _ || isWeekend _)%bool; ring.
Qed.

Lemma fold_left_standbyStep items : forall total,
  fold_left standbyStep items total == total + sumQ (map contribution items).
Proof.
  induction items as [|item items IH]; intros total; cbn [fold_left map].
  - cbn. ring.
  - rewrite sumQ_cons, IH, standbyStep_add. ring.
Qed.

Lemma totalStandbyHours_sum items :
  totalStandbyHours items == sumQ (map contribution items).
Proof. unfold totalStandbyHours. rewrite fold_left_standbyStep. ring. Qed.

Lemma workLogStep_fields acc log :
  workLogStep acc log
  = if spec_isHolidayLog log
    then mkWorkTotals (accWorkNormal acc) (accWorkHoliday acc + WorkLog.hours log)
                      (accWorkDuration acc + WorkLog.hours log)
    else mkWorkTotals (accWorkNormal acc + WorkLog.hours log) (accWorkHoliday acc)
                      (accWorkDuration acc + WorkLog.hours log).
Proof.
  unfold workLogStep, spec_isHolidayLog.
  destruct (isCzechHoliday (WorkLog.date log) || WorkLog.isHolidayOverride log)%bool;
    reflexivity.
Qed.

Lemma fold_left_workLogStep logs : forall acc,
  let r := fold_left workLogStep logs acc in
  accWorkNormal r == accWorkNormal acc + spec_workNormal logs
  /\ accWorkHoliday r == accWorkHoliday acc + spec_workHoliday logs
  /\ accWorkDuration r == accWorkDuration acc + spec_totalWorkedDuration logs.
Proof.
  unfold spec_workNormal, spec_workHoliday, spec_totalWorkedDuration.
  induction logs as [|log logs IH]; intros acc; cbn zeta.
  - cbn. repeat split; ring.
  - cbn [fold_left map filter].
    destruct (IH (workLogStep acc log)) as (Hn & Hh & Hd).
    rewrite Hn, Hh, Hd, workLogStep_fields.
    destruct (spec_isHolidayLog log);
      cbn [negb map accWorkNormal accWorkHoliday accWorkDuration];
      rewrite !sumQ_cons; repeat split; ring.
Qed.

Lemma workTotals_sums logs :
  accWorkNormal (workTotals logs) == spec_workNormal logs
  /\ accWorkHoliday (workTotals logs) == spec_workHoliday logs
  /\ accWorkDuration (workTotals logs) == spec_totalWorkedDuration logs.
Proof.
  destruct (fold_left_workLogStep logs (mkWorkTotals 0 0 0)) as (Hn & Hh & Hd).
  unfold workTotals. cbn [accWorkNormal accWorkHoliday accWorkDuration] in *.
  rewrite Hn, Hh, Hd. repeat split; ring.
Qed.

Lemma paidStandbyHours_spec state :
  Result.paidStandbyHours (calculation state)
  == spec_payableStandby (selectedOnCallDates state) (workLogs state).
Proof.
  unfold calculation, spec_payableStandby. cbn [Result.paidStandbyHours].
  destruct (workTotals_sums (workLogs state)) as (_ & _ & Hd).
  rewrite Hd, totalStandbyHours_sum. reflexivity.
Qed.

(** ** Effective monthly hours and hourly wage *)

(** C1, as stated, fails: an override of 0 is present and non-null, yet the
    effective monthly hours are the standard hours of the month (176 for
    April 2024), not 0. *)
Lemma effectiveMonthlyHours_zero_override_counterexample :
  monthlyHoursOverride (sampleState (Some 0) "devops" [] []) = Some 0
  /\ effectiveMonthlyHours (sampleState (Some 0) "devops" [] []) == 176
  /\ ~ effectiveMonthlyHours (sampleState (Some 0) "devops" [] []) == 0.
Proof.
  split; [reflexivity|]. split; [reflexivity|].
  intros H. vm_compute in H. discriminate H.
Qed.

(** C1 (amended): the effective monthly hours equal the override whenever it
    is non-null and non-zero, and equal the standard hours of the selected
    month when the override is null or zero. *)
Theorem effectiveMonthlyHours_override_or_standard (state : AppState) :
  (forall q, monthlyHoursOverride state = Some q -> ~ q == 0 ->
             effectiveMonthlyHours state = q)
  /\ (forall q, monthlyHoursOverride state = Some q -> q == 0 ->
                effectiveMonthlyHours state = standardMonthlyHours state)
  /\ (monthlyHoursOverride state = None ->
      effectiveMonthlyHours state = standardMonthlyHours state).
Proof.
  unfold effectiveMonthlyHours. repeat split.
  - intros q -> Hq. destruct (Qeq_bool q 0) eqn:E; [|reflexivity].
    apply Qeq_bool_eq in E. contradiction.
  - intros q -> Hq. now rewrite (Qeq_eq_bool _ _ Hq).
  - now intros ->.
Qed.

Lemma effectiveMonthlyHours_override_or_standard_witness :
  effectiveMonthlyHours (sampleState (Some 160) "devops" [] []) = 160
  /\ effectiveMonthlyHours (sampleState (Some 0) "devops" [] [])
     = standardMonthlyHours (sampleState (Some 0) "devops" [] [])
  /\ effectiveMonthlyHours (sampleState None "devops" [] [])
     = standardMonthlyHours (sampleState None "devops" [] []).
Proof.
  split; [|split].
  - apply (proj1 (effectiveMonthlyHours_override_or_standard
                    (sampleState (Some 160) "devops" [] [])) 160).
    + reflexivity.
    + intros H. vm_compute in H. discriminate H.
  - apply (proj1 (proj2 (effectiveMonthlyHours_override_or_standard
                           (sampleState (Some 0) "devops" [] []))) 0).
    + reflexivity.
    + reflexivity.
  - apply (proj2 (proj2 (effectiveMonthlyHours_override_or_standard
                           (sampleState None "devops" [] [])))).
    reflexivity.
Defined.

(** C9: whenever the effective monthly hours are zero or negative the hourly
    wage is 0, also in the result of [calculation]; the quotient
    salary / hours is taken only when the hours are positive. *)
Theorem hourlyWage_guarded (state : AppState) :
  (effectiveMonthlyHours state <= 0 ->
   hourlyWage state = 0 /\ Result.hourlyWage (calculation state) = 0)
  /\ (0 < effectiveMonthlyHours state ->
      hourlyWage state = monthlySalary state / effectiveMonthlyHours state).
Proof.
  unfold calculation, hourlyWage, Qgtb. cbn [Result.hourlyWage]. split; intros H.
  - apply Qle_bool_iff in H. rewrite H. cbn [negb]. split; reflexivity.
  - destruct (Qle_bool (effectiveMonthlyHours state) 0) eqn:E; [|reflexivity].
    apply Qle_bool_iff in E. exfalso. exact (Qlt_not_le _ _ H E).
Qed.

Lemma hourlyWage_guarded_witness :
  (effectiveMonthlyHours (sampleState (Some (-8)) "devops" [] []) <= 0
   /\ hourlyWage (sampleState (Some (-8)) "devops" [] []) = 0
   /\ Result.hourlyWage (calculation (sampleState (Some (-8)) "devops" [] [])) = 0)
  /\ (0 < effectiveMonthlyHours (sampleState None "devops" [] [])
      /\ hourlyWage (sampleState None "devops" [] [])
         = monthlySalary (sampleState None "devops" [] [])
           / effectiveMonthlyHours (sampleState None "devops" [] [])).
Proof.
  split.
  - assert (H : effectiveMonthlyHours (sampleState (Some (-8)) "devops" [] []) <= 0)
      by (vm_compute; discriminate).
    split; [exact H|].
    exact (proj1 (hourlyWage_guarded (sampleState (Some (-8)) "devops" [] [])) H).
  - assert (H : 0 < effectiveMonthlyHours (sampleState None "devops" [] []))
      by (vm_compute; reflexivity).
    split; [exact H|].
    exact (proj2 (hourlyWage_guarded (sampleState None "devops" [] [])) H).
Defined.

(** ** Rate table *)

(** C10: the profile "other" resolves to the rates 0.1 / 0.5 / 1.5, and for
    every profile other than "custom" neither the rates nor the result of
    [calculation] depend on [customRates]. *)
Theorem fixed_profiles_ignore_customRates :
  (forall state, profile state = "other"%string -> rates state = mkRates 0.1 0.5 1.5)
  /\ (forall state cr, profile state <> "custom"%string ->
        rates (withCustomRates state cr) = rates state
        /\ calculation (withCustomRates state cr) = calculation state).
Proof.
  split.
  - intros state H. unfold rates. rewrite H. reflexivity.
  - intros state cr H.
    assert (Hr : rates (withCustomRates state cr) = rates state).
    { unfold rates, withCustomRates. cbn [profile customRates].
      destruct (String.eqb_spec (profile state) "custom"); [contradiction|].
      reflexivity. }
    split; [exact Hr|].
    unfold calculation. rewrite Hr. reflexivity.
Qed.

Lemma fixed_profiles_ignore_customRates_witness :
  rates (sampleState None "other" [] []) = mkRates 0.1 0.5 1.5
  /\ rates (withCustomRates (sampleState None "other" items40 logs10) (mkRates 9 9 9))
     = rates (sampleState None "other" items40 logs10)
  /\ calculation (withCustomRates (sampleState None "devops" items40 logs10)
                                  (mkRates 9 9 9))
     = calculation (sampleState None "devops" items40 logs10).
Proof.
  split; [|split].
  - apply (proj1 fixed_profiles_ignore_customRates). reflexivity.
  - apply (proj2 fixed_profiles_ignore_customRates). discriminate.
  - apply (proj2 fixed_profiles_ignore_customRates). discriminate.
Defined.

(** ** Shift attribution *)

(** C2, as stated, fails: the tag "handoff" is none of the recognized
    variants, yet an assignment carrying it on a plain Tuesday is given 16
    standby hours, and [calculation] returns a result that pays them. *)
Lemma unrecognized_variant_counterexample :
  recognizedTag (SelectedDay.type handoffItem) = false
  /\ contribution handoffItem == 16
  /\ Result.paidStandbyHours
       (calculation (sampleState None "devops" [handoffItem] [])) == 16
  /\ Result.onCallFee
       (calculation (sampleState None "devops" [handoffItem] [])) == 16000 / 11.
Proof. repeat split. Qed.

(** C2 (amended): every assignment whose tag is not "start", "end" or "split",
    an unrecognized tag included, is attributed standby hours as a Full
    shift: 24 on a weekend or holiday, 16 on a plain weekday; no error is
    signalled and the loop goes on with the next assignment. *)
Theorem unrecognized_variant_counts_as_full (item : SelectedDay.t) (total : Q) :
  SelectedDay.type item <> "start"%string ->
  SelectedDay.type item <> "end"%string ->
  SelectedDay.type item <> "split"%string ->
  standbyStep total item
  = total + (if (isCzechHoliday (SelectedDay.date item)
                 || isWeekend (SelectedDay.date item))%bool then 24 else 16)
  /\ forall items,
       totalStandbyHours (items ++ [item])
       == totalStandbyHours items
          + (if (isCzechHoliday (SelectedDay.date item)
                 || isWeekend (SelectedDay.date item))%bool then 24 else 16).
Proof.
  intros Hs He Hp.
  assert (Hstep : forall t,
    standbyStep t item
    = t + (if (isCzechHoliday (SelectedDay.date item)
               || isWeekend (SelectedDay.date item))%bool then 24 else 16)).
  { intros t. unfold standbyStep.
    destruct (String.eqb_spec (SelectedDay.type item) "start"); [contradiction|].
    destruct (String.eqb_spec (SelectedDay.type item) "end"); [contradiction|].
    destruct (String.eqb_spec (SelectedDay.type item) "split"); [contradiction|].
    destruct (isCzechHoliday _ || isWeekend _)%bool; reflexivity. }
  split; [apply Hstep|].
  intros items. unfold totalStandbyHours.
  rewrite fold_left_app. cbn [fold_left]. rewrite Hstep. reflexivity.
Qed.

Lemma unrecognized_variant_counts_as_full_witness :
  standbyStep 0 handoffItem = 0 + 16
  /\ standbyStep 0 (SelectedDay.mk saturday "handoff") = 0 + 24.
Proof.
  split.
  - apply (proj1 (unrecognized_variant_counts_as_full handoffItem 0
                    ltac:(discriminate) ltac:(discriminate) ltac:(discriminate))).
  - apply (proj1 (unrecognized_variant_counts_as_full
                    (SelectedDay.mk saturday "handoff") 0
                    ltac:(discriminate) ltac:(discriminate) ltac:(discriminate))).
Defined.

(** C3: an assignment contributes the hours of the table for its variant
    and the weekend-or-holiday status of its date (Full 24/16, Start 15/7,
    End 9, Split 16), and the total is the plain sum of the contributions of
    all assignments, each further assignment adding its own hours; so a Full
    shift gives 24 on a Saturday or on Easter Monday and 16 on a plain
    Tuesday, a Start 7 on a plain Wednesday and 15 on Easter Monday. *)
Theorem standby_hours_by_variant :
  (forall v date total,
      standbyStep total (SelectedDay.mk date (variantTag v))
      = total + spec_variantHours v (isCzechHoliday date || isWeekend date))
  /\ (forall v date,
        contribution (SelectedDay.mk date (variantTag v))
        == spec_variantHours v (isCzechHoliday date || isWeekend date))
  /\ (forall items, totalStandbyHours items == sumQ (map contribution items))
  /\ (forall items item,
        totalStandbyHours (items ++ [item])
        == totalStandbyHours items + contribution item)
  /\ contribution (SelectedDay.mk saturday "full") == 24
  /\ contribution (SelectedDay.mk tuesday "full") == 16
  /\ contribution (SelectedDay.mk wednesday "start") == 7
  /\ contribution (SelectedDay.mk easterMonday2024 "full") == 24
  /\ contribution (SelectedDay.mk easterMonday2024 "start") == 15
  /\ (forall date, contribution (SelectedDay.mk date "end") == 9)
  /\ (forall date, contribution (SelectedDay.mk date "split") == 16).
Proof.
  assert (Hstep : forall v date total,
      standbyStep total (SelectedDay.mk date (variantTag v))
      = total + spec_variantHours v (isCzechHoliday date || isWeekend date)).
  { intros v date total. unfold standbyStep.
    destruct v; cbn [SelectedDay.type SelectedDay.date variantTag spec_variantHours
                     String.eqb Ascii.eqb Bool.eqb];
      destruct (isCzechHoliday date || isWeekend date)%bool; reflexivity. }
  split; [exact Hstep|].
  split; [intros v date; unfold contribution; rewrite Hstep; ring|].
  split; [exact totalStandbyHours_sum|].
  split.
  { intros items item. unfold totalStandbyHours.
    rewrite fold_left_app. cbn [fold_left]. apply standbyStep_add. }
  do 5 (split; [vm_compute; reflexivity|]).
  split; intros date; unfold contribution.
  - change "end"%string with (variantTag VEnd). rewrite Hstep. reflexivity.
  - change "split"%string with (variantTag VSplit). rewrite Hstep. reflexivity.
Qed.

(** ** Reconciliation of work logs *)

(** C4: the paid standby hours are max(0, total standby - total worked),
    where the total worked is the sum of the hours of all entries whatever
    their dates; they are never negative; 40 and 10 give 30, 40 and 50
    give 0. *)
Theorem paidStandbyHours_reconciliation (state : AppState) :
  Result.paidStandbyHours (calculation state)
  == Qmax 0 (totalStandbyHours (selectedOnCallDates state)
             - spec_totalWorkedDuration (workLogs state))
  /\ 0 <= Result.paidStandbyHours (calculation state)
  /\ (totalStandbyHours (selectedOnCallDates state) == 40 ->
      spec_totalWorkedDuration (workLogs state) == 10 ->
      Result.paidStandbyHours (calculation state) == 30)
  /\ (totalStandbyHours (selectedOnCallDates state) == 40 ->
      spec_totalWorkedDuration (workLogs state) == 50 ->
      Result.paidStandbyHours (calculation state) == 0).
Proof.
  assert (Heq : Result.paidStandbyHours (calculation state)
                == Qmax 0 (totalStandbyHours (selectedOnCallDates state)
                           - spec_totalWorkedDuration (workLogs state))).
  { rewrite paidStandbyHours_spec. unfold spec_payableStandby.
    rewrite totalStandbyHours_sum. reflexivity. }
  split; [exact Heq|]. split; [|split].
  - rewrite Heq. apply Q.le_max_l.
  - intros Hs Hw. rewrite Heq, Hs, Hw. reflexivity.
  - intros Hs Hw. rewrite Heq, Hs, Hw. reflexivity.
Qed.

Lemma paidStandbyHours_reconciliation_witness :
  Result.paidStandbyHours (calculation (sampleState None "devops" items40 logs10)) == 30
  /\ Result.paidStandbyHours (calculation (sampleState None "devops" items40 logs50)) == 0.
Proof.
  split.
  - apply (proj1 (proj2 (proj2 (paidStandbyHours_reconciliation
                                  (sampleState None "devops" items40 logs10)))));
      reflexivity.
  - apply (proj2 (proj2 (proj2 (paidStandbyHours_reconciliation
                                  (sampleState None "devops" items40 logs50)))));
      reflexivity.
Defined.

(** The three counters after the loop, as the running sums, in the order
    of the list, of the hours of the holiday entries, of the other entries
    and of all entries. *)
Lemma fold_left_workLogStep_counters logs : forall acc,
  accWorkHoliday (fold_left workLogStep logs acc)
  = fold_left Qplus (map WorkLog.hours (filter spec_isHolidayLog logs))
              (accWorkHoliday acc)
  /\ accWorkNormal (fold_left workLogStep logs acc)
     = fold_left Qplus
                 (map WorkLog.hours
                      (filter (fun l => negb (spec_isHolidayLog l)) logs))
                 (accWorkNormal acc)
  /\ accWorkDuration (fold_left workLogStep logs acc)
     = fold_left Qplus (map WorkLog.hours logs) (accWorkDuration acc).
Proof.
  induction logs as [|log logs IH]; intros acc; [repeat split|].
  cbn [fold_left filter map].
  destruct (IH (workLogStep acc log)) as (Hh & Hn & Hd).
  rewrite Hh, Hn, Hd, workLogStep_fields.
  destruct (spec_isHolidayLog log); cbn [negb]; repeat split.
Qed.

Lemma workLogStep_flag_on_holiday acc log flag :
  isCzechHoliday (WorkLog.date log) = true ->
  workLogStep acc (WorkLog.mk (WorkLog.id log) (WorkLog.date log)
                              (WorkLog.hours log) flag)
  = workLogStep acc log.
Proof.
  intros H. rewrite !workLogStep_fields. unfold spec_isHolidayLog.
  cbn [WorkLog.date WorkLog.hours WorkLog.isHolidayOverride]. now rewrite H.
Qed.

(** C6: an entry is a holiday entry when its date is auto-detected as a
    holiday or its override flag is set: the holiday counter of the result
    is the running sum of the hours of exactly these entries, the normal
    counter that of the others; an entry on an auto-detected holiday is
    among the holiday entries and not among the others whatever its flag,
    and setting its flag either way leaves the whole result as it is, so
    the flag cannot turn a holiday into a normal day. *)
Theorem holiday_override_is_union (state : AppState) :
  let isHoliday := fun log =>
    (isCzechHoliday (WorkLog.date log) || WorkLog.isHolidayOverride log)%bool in
  (Result.totalWorkHoliday (calculation state)
   = fold_left Qplus
               (map WorkLog.hours (filter isHoliday (workLogs state))) 0
   /\ Result.totalWorkNormal (calculation state)
      = fold_left Qplus
                  (map WorkLog.hours
                       (filter (fun log => negb (isHoliday log)) (workLogs state)))
                  0)
  /\ (forall log,
        In log (workLogs state) ->
        isCzechHoliday (WorkLog.date log) = true ->
        In log (filter isHoliday (workLogs state))
        /\ ~ In log (filter (fun log => negb (isHoliday log)) (workLogs state)))
  /\ (forall logs1 log logs2 flag,
        workLogs state = logs1 ++ log :: logs2 ->
        isCzechHoliday (WorkLog.date log) = true ->
        calculation
          (withWorkLogs state
             (logs1 ++ WorkLog.mk (WorkLog.id log) (WorkLog.date log)
                                  (WorkLog.hours log) flag :: logs2))
        = calculation state)
  /\ (forall acc log,
        workLogStep acc log
        = (if isHoliday log
           then mkWorkTotals (accWorkNormal acc)
                             (accWorkHoliday acc + WorkLog.hours log)
                             (accWorkDuration acc + WorkLog.hours log)
           else mkWorkTotals (accWorkNormal acc + WorkLog.hours log)
                             (accWorkHoliday acc)
                             (accWorkDuration acc + WorkLog.hours log))).
Proof.
  cbv zeta. change (fun log => (isCzechHoliday (WorkLog.date log)
                                || WorkLog.isHolidayOverride log)%bool)
    with spec_isHolidayLog.
  split; [|split; [|split]].
  - destruct (fold_left_workLogStep_counters (workLogs state) (mkWorkTotals 0 0 0))
      as (Hh & Hn & _).
    split; [exact Hh|exact Hn].
  - intros log Hin Hauto.
    assert (Hs : spec_isHolidayLog log = true)
      by (unfold spec_isHolidayLog; now rewrite Hauto).
    split.
    + apply filter_In. split; assumption.
    + intros H. apply filter_In in H. destruct H as [_ H].
      rewrite Hs in H. discriminate H.
  - intros logs1 log logs2 flag E Hauto.
    assert (Hwt : workTotals (logs1 ++ WorkLog.mk (WorkLog.id log) (WorkLog.date log)
                                                  (WorkLog.hours log) flag :: logs2)
                  = workTotals (workLogs state)).
    { rewrite E. unfold workTotals. rewrite !fold_left_app. cbn [fold_left].
      now rewrite workLogStep_flag_on_holiday. }
    unfold calculation. cbn [withWorkLogs workLogs selectedOnCallDates].
    rewrite Hwt. reflexivity.
  - intros acc log. apply workLogStep_fields.
Qed.

Lemma holiday_override_is_union_witness :
  (In easterMondayLog (filter spec_isHolidayLog (easterMondayLog :: logs10))
   /\ ~ In easterMondayLog
          (filter (fun log => negb (spec_isHolidayLog log))
                  (easterMondayLog :: logs10)))
  /\ calculation
       (withWorkLogs (sampleState None "devops" items40 (easterMondayLog :: logs10))
                     ([] ++ WorkLog.mk "c" easterMonday2024 3 true :: logs10))
     = calculation (sampleState None "devops" items40 (easterMondayLog :: logs10)).
Proof.
  split.
  - apply (proj1 (proj2 (holiday_override_is_union
                           (sampleState None "devops" items40
                                        (easterMondayLog :: logs10))))
                 easterMondayLog).
    + now left.
    + reflexivity.
  - apply (proj1 (proj2 (proj2 (holiday_override_is_union
                                  (sampleState None "devops" items40
                                               (easterMondayLog :: logs10)))))
                 [] easterMondayLog logs10 true).
    + reflexivity.
    + reflexivity.
Defined.

(** ** Standard monthly hours, the claim *)

Local Open Scope Z_scope.

(** C7: for a date whose month lies within the range of [Date], the
    standard monthly hours are 8 times the number of days of its month that
    are neither Saturday nor Sunday; a weekday that is a holiday is counted
    like any other weekday (every day of the month that is not on a weekend
    is among the working days, whatever the holiday test says of it;
    May 2024, with the holidays of 1 and 8 May on Wednesdays, has 23 working
    days and 184 hours); a month with 22 weekdays gives 176. *)
Theorem standard_hours_weekdays_times_8 :
  (forall date,
      monthInDateRange date = true ->
      calculateStandardMonthlyHours date
      = 8 * Z.of_nat (spec_weekdaysInMonth (getFullYear date) (getMonth date)))
  /\ (forall date,
        monthInDateRange date = true ->
        spec_weekdaysInMonth (getFullYear date) (getMonth date) = 22%nat ->
        calculateStandardMonthlyHours date = 176)
  /\ (forall date d,
        monthInDateRange date = true ->
        In d (spec_daysOfMonth (getFullYear date) (getMonth date)) ->
        isWeekend (mkRawDate (getFullYear date) (getMonth date) d) = false ->
        In (mkRawDate (getFullYear date) (getMonth date) d)
           (filter (fun x => negb (isWeekend x))
                   (eachDayOfInterval (startOfMonth date) (endOfMonth date))))
  /\ (monthInDateRange (mkRawDate 2024 4 1) = true
      /\ isCzechHoliday (mkRawDate 2024 4 1) = true
      /\ isWeekend (mkRawDate 2024 4 1) = false
      /\ spec_weekdaysInMonth 2024 4 = 23%nat
      /\ calculateStandardMonthlyHours (mkRawDate 2024 4 1) = 184).
Proof.
  split; [intros date _; apply calculateStandardMonthlyHours_spec|].
  split; [intros date _ H; rewrite calculateStandardMonthlyHours_spec, H; reflexivity|].
  split; [|repeat split].
  intros date d _ Hin Hwe. apply filter_In. split.
  - rewrite eachDayOfInterval_month. now apply in_map.
  - now rewrite Hwe.
Qed.

Lemma standard_hours_weekdays_times_8_witness :
  calculateStandardMonthlyHours april2024 = 176
  /\ In (mkRawDate 2024 4 8)
        (filter (fun x => negb (isWeekend x))
                (eachDayOfInterval (startOfMonth (mkRawDate 2024 4 20))
                                   (endOfMonth (mkRawDate 2024 4 20)))).
Proof.
  split.
  - apply (proj1 (proj2 standard_hours_weekdays_times_8) april2024);
      reflexivity.
  - apply (proj1 (proj2 (proj2 standard_hours_weekdays_times_8))
                 (mkRawDate 2024 4 20) 8).
    + reflexivity.
    + vm_compute. tauto.
    + reflexivity.
Defined.

(** ** Compensation engine *)

Local Open Scope Q_scope.

(** C8: the standby fee, the two overtime amounts and their total are the
    products and the sum of the specification, over the hour counters of the
    specification; in the scenario of salary 80000, April 2024 (176 hours),
    profile "devops" and one Full shift on a Tuesday, the wage is
    5000/11 (454.55 to the cent), the payable standby is 16 hours and the
    standby fee and the total bonus are 16000/11 (1454.5 to the tenth). *)
Theorem compensation_engine_formulas :
  (forall state,
      let r := calculation state in
      Result.onCallFee r
      = Result.paidStandbyHours r * Result.hourlyWage r * onCall (rates state)
      /\ Result.overtimeNormalPay r
         = Result.totalWorkNormal r * Result.hourlyWage r * (1 + otNormal (rates state))
      /\ Result.overtimeHolidayPay r
         = Result.totalWorkHoliday r * Result.hourlyWage r * (1 + otHoliday (rates state))
      /\ Result.totalExtra r
         = Result.onCallFee r + Result.overtimeNormalPay r + Result.overtimeHolidayPay r
      /\ Result.hourlyWage r = hourlyWage state)
  /\ (forall state,
        Result_eq (calculation state)
                  (spec_compute (monthlySalary state) (effectiveMonthlyHours state)
                                (rates state)
                                (spec_payableStandby (selectedOnCallDates state)
                                                     (workLogs state))
                                (spec_workNormal (workLogs state))
                                (spec_workHoliday (workLogs state))))
  /\ (effectiveMonthlyHours scenarioState == 176
      /\ rates scenarioState = mkRates 0.2 0.5 1.5
      /\ totalStandbyHours (selectedOnCallDates scenarioState) == 16
      /\ Result.hourlyWage (calculation scenarioState) == 5000 / 11
      /\ Qabs (Result.hourlyWage (calculation scenarioState) - 454.55) < 0.005
      /\ Result.paidStandbyHours (calculation scenarioState) == 16
      /\ Result.onCallFee (calculation scenarioState) == 16000 / 11
      /\ Qabs (Result.onCallFee (calculation scenarioState) - 1454.5) < 0.05
      /\ Result.totalExtra (calculation scenarioState) == 16000 / 11
      /\ Qabs (Result.totalExtra (calculation scenarioState) - 1454.5) < 0.05).
Proof.
  split; [intros state; cbn zeta; repeat split|].
  split; [|repeat split; vm_compute; reflexivity].
  intros state.
  destruct (workTotals_sums (workLogs state)) as (Hn & Hh & _).
  pose proof (paidStandbyHours_spec state) as Hp.
  unfold Result_eq, spec_compute, calculation in *.
  cbn [Result.paidStandbyHours Result.totalWorkNormal Result.totalWorkHoliday
       Result.onCallFee Result.overtimeNormalPay Result.overtimeHolidayPay
       Result.totalExtra Result.hourlyWage] in *.
  fold (hourlyWage state).
  repeat split; rewrite ?Hp, ?Hn, ?Hh; reflexivity.
Qed.

(** * Further properties of the code *)

(** ** Easter Sunday *)

Local Open Scope Z_scope.

Lemma easterOffset_weekday year :
  0 <= year -> (dayFromYear (year + 1) + easterOffset year - 395) mod 7 = 0.
Proof.
  intros Hy. unfold easterOffset, dayFromYear. cbv zeta.
  set (a := Z.rem year 19).
  set (b := year / 100).
  set (c := Z.rem year 100).
  set (h := Z.rem (19 * a + b - b / 4 - (b - (b + 8) / 25 + 1) / 3 + 15) 30).
  set (e := Z.rem b 4).
  set (k := Z.rem c 4).
  set (l := Z.rem (32 + 2 * e + 2 * (c / 4) - h - k) 7).
  assert (Ha : 0 <= a < 19) by (apply Z.rem_bound_pos; lia).
  assert (Hb : 0 <= b) by (apply Z.div_pos; lia).
  assert (Hc : 0 <= c < 100) by (apply Z.rem_bound_pos; lia).
  assert (Hh : 0 <= h < 30).
  { apply Z.rem_bound_pos; [|lia]. Z.div_mod_to_equations. lia. }
  assert (He : 0 <= e < 4) by (apply Z.rem_bound_pos; lia).
  assert (Hk : 0 <= k < 4) by (apply Z.rem_bound_pos; lia).
  assert (Hi : 0 <= c / 4) by (apply Z.div_pos; lia).
  assert (Hl : l = (32 + 2 * e + 2 * (c / 4) - h - k) mod 7)
    by (apply Z.rem_mod_nonneg; lia).
  assert (Hc' : c = year mod 100) by (apply Z.rem_mod_nonneg; lia).
  assert (He' : e = b mod 4) by (apply Z.rem_mod_nonneg; lia).
  assert (Hk' : k = c mod 4) by (apply Z.rem_mod_nonneg; lia).
  assert (Hb' : b = year / 100) by reflexivity.
  clearbody a h l e k c b.
  Z.div_mod_to_equations; lia.
Qed.

Lemma dayNumber_marchPlus y k :
  1 <= k <= 61 ->
  dayNumber (mkRawDate y (fst (marchPlus k)) (snd (marchPlus k)))
  = dayFromYear (y + 1) + k - 307.
Proof.
  intros Hk. rewrite dayFromYear_succ. unfold dayNumber.
  cbn [getFullYear getMonth getDate].
  destruct (marchPlus_cases k) as [[-> _]|[-> _]]; cbn [fst snd];
    unfold daysBeforeMonth; cbn; destruct (isLeapYear y); lia.
Qed.

Lemma validDate_marchPlus y k :
  1 <= k <= 61 ->
  validDate (mkRawDate y (fst (marchPlus k)) (snd (marchPlus k))) = true.
Proof.
  intros Hk. unfold validDate. cbn [getFullYear getMonth getDate].
  destruct (marchPlus_cases k) as [[-> H]|[-> H]]; cbn [fst snd];
    rewrite ?daysInMonth_march, ?daysInMonth_april;
    repeat (apply andb_true_iff; split); apply Z.leb_le; lia.
Qed.

(** X1: from year 100 on, the Easter Sunday computed for a year is a valid
    date of that same year, between 22 March and 25 April. *)
Theorem getEasterSunday_range (y : Z) :
  100 <= y ->
  getFullYear (getEasterSunday y) = y
  /\ validDate (getEasterSunday y) = true
  /\ ((getMonth (getEasterSunday y) = 2 /\ 22 <= getDate (getEasterSunday y) <= 31)
      \/ (getMonth (getEasterSunday y) = 3 /\ 1 <= getDate (getEasterSunday y) <= 25)).
Proof.
  intros Hy. rewrite getEasterSunday_marchPlus by assumption.
  pose proof (easterOffset_range y ltac:(lia)) as Hn.
  split; [reflexivity|]. split; [apply validDate_marchPlus; lia|].
  cbn [getMonth getDate].
  destruct (marchPlus_cases (easterOffset y - 92)) as [[-> H]|[-> H]];
    cbn [fst snd]; [left|right]; lia.
Qed.

Lemma getEasterSunday_range_witness :
  getFullYear (getEasterSunday 2025) = 2025
  /\ validDate (getEasterSunday 2025) = true
  /\ ((getMonth (getEasterSunday 2025) = 2
       /\ 22 <= getDate (getEasterSunday 2025) <= 31)
      \/ (getMonth (getEasterSunday 2025) = 3
          /\ 1 <= getDate (getEasterSunday 2025) <= 25)).
Proof. apply (getEasterSunday_range 2025). lia. Defined.

(** X2: from year 100 on, the date computed by [getEasterSunday] falls on a
    Sunday. *)
Theorem getEasterSunday_is_sunday (y : Z) :
  100 <= y -> getDay (getEasterSunday y) = 0.
Proof.
  intros Hy. rewrite getEasterSunday_marchPlus by assumption.
  pose proof (easterOffset_range y ltac:(lia)) as Hn.
  unfold getDay. rewrite dayNumber_marchPlus by lia.
  rewrite <- (easterOffset_weekday y ltac:(lia)). f_equal. lia.
Qed.

Lemma getEasterSunday_is_sunday_witness : getDay (getEasterSunday 2024) = 0.
Proof. apply (getEasterSunday_is_sunday 2024). lia. Defined.

(** X3: from year 100 on, the two dates that [isCzechHoliday] derives from
    Easter Sunday, two days before it and one day after it, are flagged as
    holidays; the first falls on a Friday and the second on a Monday, also
    when Easter Sunday is one of the first days of April or the last of
    March and the derived date lies in the neighbouring month. *)
Theorem movable_holidays_friday_monday (y : Z) :
  100 <= y ->
  let easterSunday := getEasterSunday y in
  let goodFriday := setDate easterSunday (getDate easterSunday - 2) in
  let easterMonday := setDate easterSunday (getDate easterSunday + 1) in
  (isCzechHoliday goodFriday = true /\ getDay goodFriday = 5
   /\ dayNumber goodFriday = dayNumber easterSunday - 2)
  /\ (isCzechHoliday easterMonday = true /\ getDay easterMonday = 1
      /\ dayNumber easterMonday = dayNumber easterSunday + 1)
  /\ isWeekend goodFriday = false /\ isWeekend easterMonday = false.
Proof.
  intros Hy. cbv zeta.
  pose proof (easterOffset_range y ltac:(lia)) as Hn.
  pose proof (easterOffset_weekday y ltac:(lia)) as Hw.
  rewrite getEasterSunday_marchPlus by assumption. cbn [getDate].
  replace (snd (marchPlus (easterOffset y - 92)) - 2)
    with (snd (marchPlus (easterOffset y - 92)) + (-2)) by lia.
  rewrite !setDate_marchPlus by lia.
  rewrite !isCzechHoliday_holidayAt by assumption.
  replace (easterOffset y - 92 + -2) with (easterOffset y - 94) by lia.
  replace (easterOffset y - 92 + 1) with (easterOffset y - 91) by lia.
  assert (Hgf : getDay (mkRawDate y (fst (marchPlus (easterOffset y - 94)))
                                  (snd (marchPlus (easterOffset y - 94)))) = 5).
  { unfold getDay. rewrite dayNumber_marchPlus by lia.
    Z.div_mod_to_equations. lia. }
  assert (Hem : getDay (mkRawDate y (fst (marchPlus (easterOffset y - 91)))
                                  (snd (marchPlus (easterOffset y - 91)))) = 1).
  { unfold getDay. rewrite dayNumber_marchPlus by lia.
    Z.div_mod_to_equations. lia. }
  unfold isWeekend. rewrite Hgf, Hem, !dayNumber_marchPlus by lia.
  unfold holidayAt, sameMD. rewrite <- !surjective_pairing.
  cbn [fst snd]. rewrite !Z.eqb_refl. cbn [andb].
  rewrite !orb_true_r. cbn [orb].
  repeat split; try reflexivity; lia.
Qed.

Lemma movable_holidays_friday_monday_witness :
  setDate (getEasterSunday 2018) (getDate (getEasterSunday 2018) - 2)
  = mkRawDate 2018 2 30
  /\ getDay (setDate (getEasterSunday 2018) (getDate (getEasterSunday 2018) - 2)) = 5
  /\ isCzechHoliday
       (setDate (getEasterSunday 2018) (getDate (getEasterSunday 2018) - 2)) = true.
Proof.
  split; [reflexivity|].
  pose proof (movable_holidays_friday_monday 2018 ltac:(lia)) as H.
  cbv zeta in H. destruct H as [[Hh [Hd _]] _]. split; assumption.
Defined.

(** X4: from year 100 on, a calendar year has exactly 13 holiday dates, and
    Easter Sunday itself is not one of them. *)
Theorem holidays_from_year_100 (y : Z) :
  100 <= y ->
  holidayCount y = 13%nat /\ isCzechHoliday (getEasterSunday y) = false.
Proof.
  intros Hy. split; [now apply holidayCount_13|now apply easterSunday_not_holiday].
Qed.

Lemma holidays_from_year_100_witness :
  holidayCount 2025 = 13%nat /\ isCzechHoliday (getEasterSunday 2025) = false.
Proof. apply (holidays_from_year_100 2025). lia. Defined.

(** ** Years 0 to 99 *)

Lemma newDate_century y m d :
  0 <= y <= 99 -> 0 <= m <= 11 -> 1 <= d <= daysInMonth (1900 + y) m ->
  newDate y m d = mkRawDate (1900 + y) m d.
Proof.
  intros Hy Hm Hd. unfold newDate.
  replace ((0 <=? y) && (y <=? 99))%bool with true
    by (symmetry; apply andb_true_iff; split; apply Z.leb_le; lia).
  rewrite Z.div_small, Z.mod_small, Z.add_0_r by lia.
  now apply setDate_in_range.
Qed.

Lemma getEasterSunday_century y :
  0 <= y <= 99 ->
  getEasterSunday y
  = mkRawDate (1900 + y) (fst (marchPlus (easterOffset y - 92)))
              (snd (marchPlus (easterOffset y - 92))).
Proof.
  intros Hy. rewrite getEasterSunday_offset.
  pose proof (easterOffset_range y ltac:(lia)) as Hn.
  set (n := easterOffset y) in *.
  rewrite Z.rem_mod_nonneg by lia.
  pose proof (Z.div_mod n 31 ltac:(lia)) as Hdm.
  pose proof (Z.mod_pos_bound n 31 ltac:(lia)) as Hmb.
  destruct (marchPlus_cases (n - 92)) as [[-> Hk]|[-> Hk]]; cbn [fst snd].
  - replace (n / 31 - 1) with 2 by lia.
    rewrite newDate_century; rewrite ?daysInMonth_march; try lia. f_equal; lia.
  - replace (n / 31 - 1) with 3 by lia.
    rewrite newDate_century; rewrite ?daysInMonth_april; try lia. f_equal; lia.
Qed.

Lemma fixedHolidayCountAt_11 leap : fixedHolidayCountAt leap = 11%nat.
Proof. destruct leap; vm_compute; reflexivity. Qed.

(** X5: in the years 0 to 99 the holidays are the fixed ones only: Easter
    Sunday is computed as a date of year 1900 + year, so no date of the year
    itself matches Good Friday or Easter Monday, and the year has 11 holiday
    dates. *)
Theorem holidays_of_years_0_to_99 (y : Z) :
  0 <= y <= 99 ->
  getFullYear (getEasterSunday y) = 1900 + y
  /\ (forall m d, isCzechHoliday (mkRawDate y m d) = isFixedHoliday m d)
  /\ holidayCount y = 11%nat.
Proof.
  intros Hy.
  pose proof (easterOffset_range y ltac:(lia)) as Hn.
  assert (Hh : forall m d, isCzechHoliday (mkRawDate y m d) = isFixedHoliday m d).
  { intros m d. unfold isCzechHoliday, isFixedHoliday.
    cbn [getFullYear getMonth getDate].
    rewrite getEasterSunday_century by assumption. cbn [getDate].
    replace (snd (marchPlus (easterOffset y - 92)) - 2)
      with (snd (marchPlus (easterOffset y - 92)) + (-2)) by lia.
    rewrite !setDate_marchPlus by lia.
    unfold isSameDay. cbn [getFullYear].
    replace (y =? 1900 + y) with false by (symmetry; apply Z.eqb_neq; lia).
    cbn [andb]. destruct (existsb _ fixedHolidays); reflexivity. }
  split; [rewrite getEasterSunday_century by assumption; reflexivity|].
  split; [exact Hh|].
  rewrite <- (fixedHolidayCountAt_11 (isLeapYear y)).
  unfold holidayCount, fixedHolidayCountAt, yearDates, yearMD.
  apply (length_filter_flat_map (mkRawDate y) (fun m => spec_daysOfMonth y m)).
  intros m d. apply Hh.
Qed.

Lemma holidays_of_years_0_to_99_witness :
  getFullYear (getEasterSunday 99) = 1999
  /\ (forall m d, isCzechHoliday (mkRawDate 99 m d) = isFixedHoliday m d)
  /\ holidayCount 99 = 11%nat.
Proof. apply (holidays_of_years_0_to_99 99). lia. Defined.

(** ** Range of the standard monthly hours *)

Lemma dayNumbers_bounds n d : In d (dayNumbers n) -> 1 <= d <= n.
Proof.
  unfold dayNumbers. intros H. apply in_map_iff in H.
  destruct H as (i & <- & Hi). apply in_seq in Hi. lia.
Qed.

Lemma filter_ext_in_length {A} (p q : A -> bool) (l : list A) :
  (forall x, In x l -> p x = q x) ->
  List.length (filter p l) = List.length (filter q l).
Proof. intros H. now rewrite (filter_ext_in p q l H). Qed.

Lemma getDay_same_month y m d :
  getDay (mkRawDate y m d) = (getDay (mkRawDate y m 1) + (d - 1)) mod 7.
Proof.
  unfold getDay. pose proof (dayNumber_same_month y m d 1) as H.
  replace (dayNumber (mkRawDate y m d))
    with (dayNumber (mkRawDate y m 1) + (d - 1)) by lia.
  rewrite Z.add_mod_idemp_l by lia. f_equal. lia.
Qed.

Lemma spec_weekdaysInMonth_weekdaysFrom y m :
  spec_weekdaysInMonth y m
  = weekdaysFrom (getDay (mkRawDate y m 1)) (daysInMonth y m).
Proof.
  unfold spec_weekdaysInMonth, weekdaysFrom, spec_daysOfMonth.
  apply filter_ext_in_length. intros d _. now rewrite getDay_same_month.
Qed.

Lemma weekdaysFrom_all :
  forallb (fun w =>
    forallb (fun n => Nat.leb 20 (weekdaysFrom w n) && Nat.leb (weekdaysFrom w n) 23)
            [28; 29; 30; 31]) [0; 1; 2; 3; 4; 5; 6] = true.
Proof. vm_compute. reflexivity. Qed.

Lemma standardHours_bounds (date : Date) :
  160 <= calculateStandardMonthlyHours date <= 184
  /\ calculateStandardMonthlyHours date mod 8 = 0.
Proof.
  rewrite calculateStandardMonthlyHours_spec, spec_weekdaysInMonth_weekdaysFrom.
  set (y := getFullYear date). set (m := getMonth date).
  pose proof (daysInMonth_bounds y m) as Hn.
  assert (Hw : 0 <= getDay (mkRawDate y m 1) < 7)
    by (unfold getDay; apply Z.mod_pos_bound; lia).
  assert (Hin1 : In (getDay (mkRawDate y m 1)) [0; 1; 2; 3; 4; 5; 6])
    by (cbn; lia).
  assert (Hin2 : In (daysInMonth y m) [28; 29; 30; 31]) by (cbn; lia).
  pose proof (proj1 (forallb_forall _ _) weekdaysFrom_all _ Hin1) as H1.
  cbn beta in H1.
  pose proof (proj1 (forallb_forall _ _) H1 _ Hin2) as H2. cbn beta in H2.
  apply andb_true_iff in H2. destruct H2 as [Hlo Hhi].
  apply Nat.leb_le in Hlo. apply Nat.leb_le in Hhi.
  split; [lia|].
  rewrite Z.mul_comm. apply Z.mod_mul. lia.
Qed.

(** X6: for every date whose month lies within the range of [Date], the
    standard monthly hours are a multiple of 8 between 160 and 184: a month
    has 20 to 23 days that are not on a weekend. *)
Theorem calculateStandardMonthlyHours_range (date : Date) :
  monthInDateRange date = true ->
  160 <= calculateStandardMonthlyHours date <= 184
  /\ calculateStandardMonthlyHours date mod 8 = 0.
Proof. intros _. apply standardHours_bounds. Qed.

Lemma calculateStandardMonthlyHours_range_witness :
  160 <= calculateStandardMonthlyHours (mkRawDate 2023 1 14) <= 184
  /\ calculateStandardMonthlyHours (mkRawDate 2023 1 14) mod 8 = 0.
Proof. apply (calculateStandardMonthlyHours_range (mkRawDate 2023 1 14)). reflexivity. Defined.

(** ** Effective hours and the reset button *)

Local Open Scope Q_scope.

Lemma standardMonthlyHours_range state :
  160 <= standardMonthlyHours state <= 184.
Proof.
  unfold standardMonthlyHours.
  destruct (standardHours_bounds (selectedDate state)) as [[Hlo Hhi] _].
  split.
  - change 160 with (inject_Z 160). now rewrite <- Zle_Qle.
  - change 184 with (inject_Z 184). now rewrite <- Zle_Qle.
Qed.

Lemma hourlyWage_with_standard_hours state :
  (forall q, monthlyHoursOverride state = Some q -> q == 0) ->
  effectiveMonthlyHours state = standardMonthlyHours state
  /\ hourlyWage state = monthlySalary state / standardMonthlyHours state.
Proof.
  intros H.
  pose proof (standardMonthlyHours_range state) as [Hlo Hhi].
  assert (Hpos : 0 < standardMonthlyHours state)
    by (apply Qlt_le_trans with 160; [reflexivity|assumption]).
  assert (He : effectiveMonthlyHours state = standardMonthlyHours state).
  { unfold effectiveMonthlyHours.
    destruct (monthlyHoursOverride state) as [q|]; [|reflexivity].
    now rewrite (Qeq_eq_bool _ _ (H q eq_refl)). }
  split; [exact He|].
  unfold hourlyWage, Qgtb. rewrite He.
  destruct (Qle_bool (standardMonthlyHours state) 0) eqn:E; [|reflexivity].
  apply Qle_bool_iff in E. exfalso. exact (Qlt_not_le _ _ Hpos E).
Qed.

(** X7: when the selected month lies within the range of [Date], the
    effective monthly hours are zero or negative exactly when the override
    is a negative number, so the zero branch of the wage is taken for
    negative overrides only; with a null or zero override the wage is the
    salary divided by the standard hours of the month, which lie between
    160 and 184. *)
Theorem effectiveMonthlyHours_sign (state : AppState) :
  monthInDateRange (selectedDate state) = true ->
  (effectiveMonthlyHours state <= 0
   <-> exists q, monthlyHoursOverride state = Some q /\ q < 0)
  /\ ((forall q, monthlyHoursOverride state = Some q -> q == 0) ->
      hourlyWage state = monthlySalary state / standardMonthlyHours state
      /\ 160 <= effectiveMonthlyHours state <= 184).
Proof.
  intros _.
  pose proof (standardMonthlyHours_range state) as [Hlo Hhi].
  assert (Hpos : 0 < standardMonthlyHours state)
    by (apply Qlt_le_trans with 160; [reflexivity|assumption]).
  split; [split|].
  - unfold effectiveMonthlyHours. intros H.
    destruct (monthlyHoursOverride state) as [q|] eqn:E.
    + destruct (Qeq_bool q 0) eqn:Eq.
      * exfalso. exact (Qlt_not_le _ _ Hpos H).
      * exists q. split; [reflexivity|].
        apply Qle_lteq in H. destruct H as [H|H]; [exact H|].
        apply Qeq_eq_bool in H. congruence.
    + exfalso. exact (Qlt_not_le _ _ Hpos H).
  - intros (q & E & Hq). unfold effectiveMonthlyHours. rewrite E.
    destruct (Qeq_bool q 0) eqn:Eq.
    + apply Qeq_bool_eq in Eq. rewrite Eq in Hq. discriminate Hq.
    + now apply Qlt_le_weak.
  - intros H. destruct (hourlyWage_with_standard_hours state H) as [He Hw].
    rewrite He. repeat split; assumption.
Qed.

Lemma effectiveMonthlyHours_sign_witness :
  (exists q, monthlyHoursOverride (sampleState (Some (-8)) "devops" [] []) = Some q
             /\ q < 0)
  /\ hourlyWage (sampleState (Some 0) "devops" [] [])
     = monthlySalary (sampleState (Some 0) "devops" [] [])
       / standardMonthlyHours (sampleState (Some 0) "devops" [] []).
Proof.
  split.
  - apply (proj1 (effectiveMonthlyHours_sign (sampleState (Some (-8)) "devops" [] [])
                                            eq_refl)).
    vm_compute. discriminate.
  - apply (proj2 (effectiveMonthlyHours_sign (sampleState (Some 0) "devops" [] [])
                                            eq_refl)).
    intros q H. injection H as <-. reflexivity.
Defined.



(** ** The result as a function of the sums *)

Lemma sumQ_nonneg l : Forall (fun q => 0 <= q) l -> 0 <= sumQ l.
Proof.
  induction 1 as [|q l Hq _ IH]; [apply Qle_refl|].
  rewrite sumQ_cons. lra.
Qed.

Lemma sumQ_Permutation l l' : Permutation l l' -> sumQ l == sumQ l'.
Proof.
  induction 1 as [|x l l' _ IH|x y l|l l' l'' _ IH1 _ IH2].
  - reflexivity.
  - rewrite !sumQ_cons, IH. reflexivity.
  - rewrite !sumQ_cons. ring.
  - now rewrite IH1.
Qed.

Lemma sumQ_filter_Permutation {A} (p : A -> bool) (f : A -> Q) l l' :
  Permutation l l' -> sumQ (map f (filter p l)) == sumQ (map f (filter p l')).
Proof.
  induction 1 as [|x l l' _ IH|x y l|l l' l'' _ IH1 _ IH2].
  - reflexivity.
  - cbn [filter]. destruct (p x); cbn [map]; rewrite ?sumQ_cons, IH; reflexivity.
  - cbn [filter]. destruct (p x), (p y); cbn [map]; rewrite ?sumQ_cons;
      try reflexivity; ring.
  - now rewrite IH1.
Qed.

Lemma spec_work_partition logs :
  spec_workNormal logs + spec_workHoliday logs == spec_totalWorkedDuration logs.
Proof.
  unfold spec_workNormal, spec_workHoliday, spec_totalWorkedDuration.
  induction logs as [|log logs IH]; [reflexivity|].
  cbn [filter map]. destruct (spec_isHolidayLog log); cbn [negb map];
    rewrite !sumQ_cons, <- IH; ring.
Qed.

(** The fields of the result in terms of the sums over the two lists. *)
Lemma calculation_by_sums state :
  let r := calculation state in
  Result.paidStandbyHours r
  == Qmax 0 (sumQ (map contribution (selectedOnCallDates state))
             - spec_totalWorkedDuration (workLogs state))
  /\ Result.totalWorkNormal r == spec_workNormal (workLogs state)
  /\ Result.totalWorkHoliday r == spec_workHoliday (workLogs state)
  /\ Result.onCallFee r
     = Result.paidStandbyHours r * hourlyWage state * onCall (rates state)
  /\ Result.overtimeNormalPay r
     = Result.totalWorkNormal r * hourlyWage state * (1 + otNormal (rates state))
  /\ Result.overtimeHolidayPay r
     = Result.totalWorkHoliday r * hourlyWage state * (1 + otHoliday (rates state))
  /\ Result.totalExtra r
     = Result.onCallFee r + Result.overtimeNormalPay r + Result.overtimeHolidayPay r
  /\ Result.hourlyWage r = hourlyWage state.
Proof.
  cbv zeta. destruct (workTotals_sums (workLogs state)) as (Hn & Hh & _).
  split; [apply paidStandbyHours_spec|].
  split; [exact Hn|]. split; [exact Hh|]. repeat split.
Qed.

Lemma hourlyWage_nonneg state : 0 <= monthlySalary state -> 0 <= hourlyWage state.
Proof.
  intros Hs. unfold hourlyWage, Qgtb.
  destruct (Qle_bool (effectiveMonthlyHours state) 0) eqn:E; cbn [negb];
    [apply Qle_refl|].
  assert (Hpos : 0 < effectiveMonthlyHours state).
  { apply Qnot_le_lt. intros H. apply Qle_bool_iff in H. congruence. }
  unfold Qdiv. apply Qmult_le_0_compat; [assumption|].
  apply Qinv_le_0_compat. now apply Qlt_le_weak.
Qed.

Lemma contribution_bounds item : 7 <= contribution item <= 24.
Proof.
  unfold contribution, standbyStep.
  destruct (String.eqb (SelectedDay.type item) "start");
    [destruct (isCzechHoliday _ || isWeekend _)%bool; split; discriminate|].
  destruct (String.eqb (SelectedDay.type item) "end"); [split; discriminate|].
  destruct (String.eqb (SelectedDay.type item) "split"); [split; discriminate|].
  destruct (isCzechHoliday _ || isWeekend _)%bool; split; discriminate.
Qed.

Lemma sumQ_contribution_bounds items :
  7 * inject_Z (Z.of_nat (List.length items))
  <= sumQ (map contribution items)
  <= 24 * inject_Z (Z.of_nat (List.length items)).
Proof.
  induction items as [|item items IH].
  - cbn. split; discriminate.
  - cbn [List.length map]. rewrite sumQ_cons, Nat2Z.inj_succ.
    unfold Z.succ. rewrite inject_Z_plus.
    pose proof (contribution_bounds item). change (inject_Z 1) with 1. lra.
Qed.

Lemma worked_nonneg logs :
  nonNegativeHours logs ->
  0 <= spec_totalWorkedDuration logs /\ 0 <= spec_workNormal logs
  /\ 0 <= spec_workHoliday logs.
Proof.
  unfold nonNegativeHours, spec_totalWorkedDuration, spec_workNormal, spec_workHoliday.
  induction 1 as [|log logs Hl _ IH]; [repeat split; apply Qle_refl|].
  destruct IH as (Hd & Hn & Hh). cbn [filter map].
  destruct (spec_isHolidayLog log); cbn [negb map]; rewrite !sumQ_cons;
    repeat split; lra.
Qed.

(** Two states with the same wage and rates and the same four sums have
    the same result. *)
Lemma Result_eq_by_sums state state' :
  hourlyWage state = hourlyWage state' ->
  rates state = rates state' ->
  sumQ (map contribution (selectedOnCallDates state))
  == sumQ (map contribution (selectedOnCallDates state')) ->
  spec_totalWorkedDuration (workLogs state)
  == spec_totalWorkedDuration (workLogs state') ->
  spec_workNormal (workLogs state) == spec_workNormal (workLogs state') ->
  spec_workHoliday (workLogs state) == spec_workHoliday (workLogs state') ->
  Result_eq (calculation state) (calculation state').
Proof.
  intros Ew Er Es Ed En Eh.
  destruct (calculation_by_sums state) as (Hp & Hn & Hh & Hf & Hon & Hoh & Ht & Hw).
  destruct (calculation_by_sums state')
    as (Hp' & Hn' & Hh' & Hf' & Hon' & Hoh' & Ht' & Hw').
  assert (Ep : Result.paidStandbyHours (calculation state)
               == Result.paidStandbyHours (calculation state'))
    by (rewrite Hp, Hp', Es, Ed; reflexivity).
  assert (En' : Result.totalWorkNormal (calculation state)
                == Result.totalWorkNormal (calculation state'))
    by (rewrite Hn, Hn'; exact En).
  assert (Eh' : Result.totalWorkHoliday (calculation state)
                == Result.totalWorkHoliday (calculation state'))
    by (rewrite Hh, Hh'; exact Eh).
  unfold Result_eq. rewrite Ht, Ht', Hf, Hf', Hon, Hon', Hoh, Hoh', Hw, Hw'.
  rewrite Ep, En', Eh', Ew, Er. repeat split; reflexivity.
Qed.

(** ** Properties of the result *)

(** X9: for logged hours that are multiples of one half, every logged hour
    is counted in exactly one of the two overtime counters: normal plus
    holiday hours equal the sum of the hours of all entries. *)
Theorem work_hours_partition (state : AppState) :
  halfHourLogs (workLogs state) ->
  Result.totalWorkNormal (calculation state)
  + Result.totalWorkHoliday (calculation state)
  == sumQ (map WorkLog.hours (workLogs state)).
Proof.
  intros _. destruct (calculation_by_sums state) as (_ & Hn & Hh & _).
  rewrite Hn, Hh. apply spec_work_partition.
Qed.

Lemma halfHourLogs_logs50 : halfHourLogs logs50.
Proof.
  apply Forall_cons; [exists 60%Z; split; [lia|reflexivity]|].
  apply Forall_cons; [exists 40%Z; split; [lia|reflexivity]|apply Forall_nil].
Defined.

Lemma halfHourLogs_logs10 : halfHourLogs logs10.
Proof.
  apply Forall_cons; [exists 20%Z; split; [lia|reflexivity]|apply Forall_nil].
Defined.

Lemma work_hours_partition_witness :
  Result.totalWorkNormal (calculation (sampleState None "devops" items40 logs50))
  + Result.totalWorkHoliday (calculation (sampleState None "devops" items40 logs50))
  == sumQ (map WorkLog.hours logs50).
Proof.
  apply (work_hours_partition (sampleState None "devops" items40 logs50)).
  exact halfHourLogs_logs50.
Defined.

(** X10: the result does not depend on the order of the assignments; for
    logged hours that are multiples of one half it does not depend on the
    order of the work-log entries either. *)
Theorem calculation_order_independent (state : AppState)
        (items : list SelectedDay.t) (logs : list WorkLog.t) :
  Permutation (selectedOnCallDates state) items ->
  Result_eq (calculation state)
            (calculation (withEntries state items (workLogs state)))
  /\ (Permutation (workLogs state) logs ->
      halfHourLogs (workLogs state) ->
      Result_eq (calculation state) (calculation (withEntries state items logs))).
Proof.
  intros Hi. split; [|intros Hl _]; apply Result_eq_by_sums; try reflexivity;
    cbn [withEntries withWorkLogs withSelectedOnCallDates selectedOnCallDates workLogs].
  - apply sumQ_Permutation. now apply Permutation_map.
  - apply sumQ_Permutation. now apply Permutation_map.
  - apply sumQ_Permutation. now apply Permutation_map.
  - now apply sumQ_filter_Permutation.
  - now apply sumQ_filter_Permutation.
Qed.

Lemma calculation_order_independent_witness :
  Result_eq (calculation (sampleState None "devops" items40 logs50))
            (calculation (withEntries (sampleState None "devops" items40 logs50)
                                      (rev items40) (rev logs50))).
Proof.
  apply (proj2 (calculation_order_independent
                  (sampleState None "devops" items40 logs50)
                  (rev items40) (rev logs50) (Permutation_rev items40))).
  - apply Permutation_rev.
  - exact halfHourLogs_logs50.
Defined.

(** X11: every assignment, whatever its tag and date, adds between 7 and 24
    standby hours, so [n] assignments give between 7 n and 24 n hours, and the
    paid standby hours never exceed 24 n. *)
Theorem standby_hours_bounds (state : AppState) :
  let n := inject_Z (Z.of_nat (List.length (selectedOnCallDates state))) in
  7 * n <= totalStandbyHours (selectedOnCallDates state) <= 24 * n
  /\ (nonNegativeHours (workLogs state) ->
      Result.paidStandbyHours (calculation state)
      <= totalStandbyHours (selectedOnCallDates state)
      /\ Result.paidStandbyHours (calculation state) <= 24 * n).
Proof.
  cbv zeta.
  pose proof (sumQ_contribution_bounds (selectedOnCallDates state)) as [Hlo Hhi].
  pose proof (totalStandbyHours_sum (selectedOnCallDates state)) as Hs.
  split; [rewrite Hs; split; assumption|].
  intros Hnn. destruct (worked_nonneg _ Hnn) as (Hd & _ & _).
  destruct (calculation_by_sums state) as (Hp & _).
  assert (H : Result.paidStandbyHours (calculation state)
              <= sumQ (map contribution (selectedOnCallDates state))).
  { rewrite Hp. apply Q.max_lub; [|lra].
    apply Qle_trans with (7 * inject_Z (Z.of_nat (List.length (selectedOnCallDates state))));
      [|assumption].
    apply Qmult_le_0_compat; [discriminate|].
    change 0 with (inject_Z 0). rewrite <- Zle_Qle. lia. }
  split; [rewrite Hs; exact H|]. lra.
Qed.

Lemma standby_hours_bounds_witness :
  Result.paidStandbyHours (calculation (sampleState None "devops" items40 logs10))
  <= totalStandbyHours items40.
Proof.
  apply (proj2 (standby_hours_bounds (sampleState None "devops" items40 logs10))).
  repeat constructor; discriminate.
Defined.

(** X12: with a non-negative salary, non-negative rates and non-negative
    logged hours, the wage, the three pay amounts and the total bonus are
    all non-negative. *)
Theorem pay_is_non_negative (state : AppState) :
  0 <= monthlySalary state ->
  0 <= onCall (rates state) -> 0 <= otNormal (rates state) ->
  0 <= otHoliday (rates state) ->
  nonNegativeHours (workLogs state) ->
  let r := calculation state in
  0 <= Result.hourlyWage r /\ 0 <= Result.onCallFee r
  /\ 0 <= Result.overtimeNormalPay r /\ 0 <= Result.overtimeHolidayPay r
  /\ 0 <= Result.totalExtra r.
Proof.
  intros Hs Hc Hn Hh Hl. cbv zeta.
  destruct (calculation_by_sums state) as (Ep & En & Eh & Ef & Eon & Eoh & Et & Ew).
  destruct (worked_nonneg _ Hl) as (_ & Hwn & Hwh).
  pose proof (hourlyWage_nonneg state Hs) as Hw.
  assert (Hp : 0 <= Result.paidStandbyHours (calculation state))
    by (rewrite Ep; apply Q.le_max_l).
  assert (H1 : 0 <= Result.onCallFee (calculation state)).
  { rewrite Ef. repeat apply Qmult_le_0_compat; assumption. }
  assert (H2 : 0 <= Result.overtimeNormalPay (calculation state)).
  { rewrite Eon, En. repeat apply Qmult_le_0_compat; try assumption. lra. }
  assert (H3 : 0 <= Result.overtimeHolidayPay (calculation state)).
  { rewrite Eoh, Eh. repeat apply Qmult_le_0_compat; try assumption. lra. }
  rewrite Ew, Et. repeat split; try assumption. lra.
Qed.

Lemma pay_is_non_negative_witness :
  0 <= Result.totalExtra (calculation (sampleState None "devops" items40 logs50)).
Proof.
  apply (pay_is_non_negative (sampleState None "devops" items40 logs50)).
  - discriminate.
  - discriminate.
  - discriminate.
  - discriminate.
  - repeat constructor; discriminate.
Defined.



(** ** Toggling a day of the calendar *)

Lemma isSameDay_eq a b : isSameDay a b = true <-> a = b.
Proof.
  unfold isSameDay. destruct a as [ya ma da], b as [yb mb db].
  cbn [getFullYear getMonth getDate]. split.
  - intros H. apply andb_true_iff in H. destruct H as [H Hd].
    apply andb_true_iff in H. destruct H as [Hy Hm].
    apply Z.eqb_eq in Hy, Hm, Hd. now subst.
  - intros H. injection H as -> -> ->. now rewrite !Z.eqb_refl.
Qed.

Lemma isSameDay_refl a : isSameDay a a = true.
Proof. now apply isSameDay_eq. Qed.

Lemma findIndexFrom_split {A} (p : A -> bool) (l : list A) : forall k,
  ((forall x, In x l -> p x = false) /\ findIndexFrom p l k = (-1)%Z)
  \/ (exists l1 x l2,
        l = l1 ++ x :: l2 /\ (forall y, In y l1 -> p y = false) /\ p x = true
        /\ findIndexFrom p l k = (k + Z.of_nat (List.length l1))%Z).
Proof.
  induction l as [|a l IH]; intros k.
  - left. split; [intros x []|reflexivity].
  - cbn [findIndexFrom]. destruct (p a) eqn:Ea.
    + right. exists [], a, l. cbn. repeat split; [intros y []|assumption|lia].
    + destruct (IH (k + 1)%Z) as [[Hn Hi]|(l1 & x & l2 & -> & Hn & Hx & Hi)].
      * left. split; [|exact Hi]. intros x [<-|Hx]; [assumption|now apply Hn].
      * right. exists (a :: l1), x, l2. cbn [app List.length].
        repeat split; [|assumption|lia].
        intros y [<-|Hy]; [assumption|now apply Hn].
Qed.

Lemma nth_error_middle {A} (l1 : list A) x l2 :
  nth_error (l1 ++ x :: l2) (List.length l1) = Some x.
Proof. induction l1 as [|a l1 IH]; [reflexivity|exact IH]. Qed.

Lemma setAt_middle {A} (l1 : list A) x l2 v :
  setAt (l1 ++ x :: l2) (List.length l1) v = l1 ++ v :: l2.
Proof. induction l1 as [|a l1 IH]; [reflexivity|]. cbn. now rewrite IH. Qed.

Lemma spliceOne_middle {A} (l1 : list A) x l2 :
  spliceOne (l1 ++ x :: l2) (List.length l1) = l1 ++ l2.
Proof. induction l1 as [|a l1 IH]; [reflexivity|]. cbn. now rewrite IH. Qed.

(** The two cases of a toggle: a free day gets a Full assignment at the
    end of the list; otherwise the first assignment of the day moves on in
    the cycle, in place. *)
Lemma toggleDate_cases state day :
  (freeDay (selectedOnCallDates state) day
   /\ selectedOnCallDates (toggleDate state day)
      = selectedOnCallDates state ++ [SelectedDay.mk day "full"])
  \/ (exists l1 x l2,
        selectedOnCallDates state = l1 ++ x :: l2
        /\ freeDay l1 day /\ SelectedDay.date x = day
        /\ selectedOnCallDates (toggleDate state day)
           = l1 ++ nextAssignment x ++ l2).
Proof.
  unfold toggleDate, findIndex. cbn [withSelectedOnCallDates selectedOnCallDates].
  destruct (findIndexFrom_split (fun d => isSameDay (SelectedDay.date d) day)
                                (selectedOnCallDates state) 0)
    as [[Hn ->]|(l1 & x & l2 & E & Hn & Hx & ->)].
  - left. split; [exact Hn|reflexivity].
  - right. exists l1, x, l2. rewrite E.
    split; [reflexivity|]. split; [exact Hn|].
    split; [now apply isSameDay_eq|].
    replace (0 <=? 0 + Z.of_nat (List.length l1))%Z with true
      by (symmetry; apply Z.leb_le; lia).
    replace (Z.to_nat (0 + Z.of_nat (List.length l1))) with (List.length l1) by lia.
    rewrite nth_error_middle. unfold nextAssignment.
    destruct (String.eqb (SelectedDay.type x) "full");
      [now rewrite setAt_middle|].
    destruct (String.eqb (SelectedDay.type x) "start");
      [now rewrite setAt_middle|].
    destruct (String.eqb (SelectedDay.type x) "end");
      [now rewrite setAt_middle|].
    now rewrite spliceOne_middle.
Qed.

Lemma toggleDate_on_last state day sel x :
  selectedOnCallDates state = sel ++ [x] ->
  freeDay sel day -> SelectedDay.date x = day ->
  selectedOnCallDates (toggleDate state day) = sel ++ nextAssignment x.
Proof.
  intros E Hfree Hx.
  destruct (toggleDate_cases state day)
    as [[Hn _]|(l1 & x' & l2 & E' & Hn & Hx' & ->)].
  - exfalso. specialize (Hn x). rewrite E in Hn.
    rewrite Hx, isSameDay_refl in Hn. discriminate Hn.
    apply in_or_app. right. now left.
  - rewrite E in E'.
    destruct l2 as [|z l2].
    + apply app_inj_tail in E'. destruct E' as [-> ->].
      now rewrite app_nil_r.
    + exfalso. assert (Hin : In x' sel).
      { assert (H : In x' (removelast (sel ++ [x]))).
        { rewrite E'. rewrite removelast_app by discriminate.
          apply in_or_app. right. cbn. destruct l2; [now left|now left]. }
        now rewrite removelast_last in H. }
      specialize (Hfree x' Hin). rewrite Hx', isSameDay_refl in Hfree.
      discriminate Hfree.
Qed.

Lemma withSelectedOnCallDates_same state :
  withSelectedOnCallDates state (selectedOnCallDates state) = state.
Proof. now destruct state. Qed.

Lemma toggleDate_withSelected state day :
  toggleDate state day
  = withSelectedOnCallDates state (selectedOnCallDates (toggleDate state day)).
Proof. reflexivity. Qed.

(** X14: on a day without assignment, successive toggles give the day a
    Full, then a Start, an End and a Split assignment at the end of the list,
    and the fifth toggle restores the state. *)
Theorem toggleDate_cycle (state : AppState) (day : Date) :
  freeDay (selectedOnCallDates state) day ->
  let s1 := toggleDate state day in
  let s2 := toggleDate s1 day in
  let s3 := toggleDate s2 day in
  let s4 := toggleDate s3 day in
  selectedOnCallDates s1 = selectedOnCallDates state ++ [SelectedDay.mk day "full"]
  /\ selectedOnCallDates s2 = selectedOnCallDates state ++ [SelectedDay.mk day "start"]
  /\ selectedOnCallDates s3 = selectedOnCallDates state ++ [SelectedDay.mk day "end"]
  /\ selectedOnCallDates s4 = selectedOnCallDates state ++ [SelectedDay.mk day "split"]
  /\ toggleDate s4 day = state.
Proof.
  intros Hfree. cbv zeta.
  assert (H1 : selectedOnCallDates (toggleDate state day)
               = selectedOnCallDates state ++ [SelectedDay.mk day "full"]).
  { destruct (toggleDate_cases state day)
      as [[_ H]|(l1 & x & l2 & E & _ & Hx & _)]; [exact H|].
    exfalso. specialize (Hfree x). rewrite E, Hx, isSameDay_refl in Hfree.
    discriminate Hfree. apply in_or_app. right. now left. }
  assert (H2 : selectedOnCallDates (toggleDate (toggleDate state day) day)
               = selectedOnCallDates state ++ [SelectedDay.mk day "start"])
    by exact (toggleDate_on_last _ day _ _ H1 Hfree eq_refl).
  assert (H3 : selectedOnCallDates
                 (toggleDate (toggleDate (toggleDate state day) day) day)
               = selectedOnCallDates state ++ [SelectedDay.mk day "end"])
    by exact (toggleDate_on_last _ day _ _ H2 Hfree eq_refl).
  assert (H4 : selectedOnCallDates
                 (toggleDate (toggleDate (toggleDate (toggleDate state day) day)
                                         day) day)
               = selectedOnCallDates state ++ [SelectedDay.mk day "split"])
    by exact (toggleDate_on_last _ day _ _ H3 Hfree eq_refl).
  assert (H5 : selectedOnCallDates
                 (toggleDate (toggleDate (toggleDate (toggleDate
                    (toggleDate state day) day) day) day) day)
               = selectedOnCallDates state ++ [])
    by exact (toggleDate_on_last _ day _ _ H4 Hfree eq_refl).
  rewrite app_nil_r in H5.
  repeat split; try assumption.
  rewrite toggleDate_withSelected, H5.
  transitivity (withSelectedOnCallDates state (selectedOnCallDates state));
    [reflexivity|apply withSelectedOnCallDates_same].
Qed.

Lemma toggleDate_cycle_witness :
  toggleDate (toggleDate (toggleDate (toggleDate (toggleDate
    (sampleState None "devops" items40 logs10) wednesday) wednesday) wednesday)
    wednesday) wednesday
  = sampleState None "devops" items40 logs10.
Proof.
  apply (toggleDate_cycle (sampleState None "devops" items40 logs10) wednesday).
  intros d [<-|[<-|[]]]; reflexivity.
Defined.

Lemma map_date_nextAssignment x :
  map SelectedDay.date (nextAssignment x) = [SelectedDay.date x]
  \/ nextAssignment x = [].
Proof.
  unfold nextAssignment.
  destruct (String.eqb (SelectedDay.type x) "full"); [now left|].
  destruct (String.eqb (SelectedDay.type x) "start"); [now left|].
  destruct (String.eqb (SelectedDay.type x) "end"); [now left|now right].
Qed.

Lemma freeDay_not_in sel day :
  freeDay sel day -> ~ In day (map SelectedDay.date sel).
Proof.
  intros Hfree Hin. apply in_map_iff in Hin. destruct Hin as (d & Hd & Hin).
  specialize (Hfree d Hin). rewrite Hd, isSameDay_refl in Hfree. discriminate.
Qed.

(** X15: a toggle keeps the invariant that no two assignments are on the
    same day. *)
Theorem toggleDate_keeps_one_assignment_per_day (state : AppState) (day : Date) :
  NoDup (map SelectedDay.date (selectedOnCallDates state)) ->
  NoDup (map SelectedDay.date (selectedOnCallDates (toggleDate state day))).
Proof.
  intros Hnd.
  destruct (toggleDate_cases state day)
    as [[Hfree ->]|(l1 & x & l2 & E & Hfree & Hx & ->)].
  - rewrite map_app. cbn [map SelectedDay.date].
    apply Permutation_NoDup with (l := day :: map SelectedDay.date (selectedOnCallDates state)).
    + apply Permutation_cons_append.
    + constructor; [now apply freeDay_not_in|assumption].
  - rewrite E in Hnd. rewrite !map_app in *. cbn [map] in Hnd.
    destruct (map_date_nextAssignment x) as [->| ->].
    + exact Hnd.
    + cbn [map app]. now apply NoDup_remove_1 in Hnd.
Qed.

Lemma toggleDate_keeps_one_assignment_per_day_witness :
  NoDup (map SelectedDay.date
             (selectedOnCallDates
                (toggleDate (sampleState None "devops" items40 logs10) tuesday))).
Proof.
  apply (toggleDate_keeps_one_assignment_per_day
           (sampleState None "devops" items40 logs10) tuesday).
  repeat constructor; cbn; intuition discriminate.
Defined.

(** X16: a toggle touches the assignments of the clicked day only: the
    assignments of all other days are kept, in their order, and so are the
    other fields of the state. *)
Theorem toggleDate_keeps_other_days (state : AppState) (day : Date) :
  filter (fun d => negb (isSameDay (SelectedDay.date d) day))
         (selectedOnCallDates (toggleDate state day))
  = filter (fun d => negb (isSameDay (SelectedDay.date d) day))
           (selectedOnCallDates state)
  /\ workLogs (toggleDate state day) = workLogs state
  /\ hourlyWage (toggleDate state day) = hourlyWage state
  /\ rates (toggleDate state day) = rates state.
Proof.
  split; [|repeat split].
  destruct (toggleDate_cases state day)
    as [[Hfree ->]|(l1 & x & l2 & E & Hfree & Hx & ->)].
  - rewrite filter_app. cbn [filter SelectedDay.date].
    rewrite isSameDay_refl. cbn [negb]. apply app_nil_r.
  - rewrite E, !filter_app. cbn [filter]. f_equal.
    rewrite Hx, isSameDay_refl. cbn [negb].
    replace (filter (fun d => negb (isSameDay (SelectedDay.date d) day))
                    (nextAssignment x)) with (@nil SelectedDay.t); [reflexivity|].
    unfold nextAssignment.
    destruct (String.eqb (SelectedDay.type x) "full");
      [cbn; now rewrite Hx, isSameDay_refl|].
    destruct (String.eqb (SelectedDay.type x) "start");
      [cbn; now rewrite Hx, isSameDay_refl|].
    destruct (String.eqb (SelectedDay.type x) "end");
      [cbn; now rewrite Hx, isSameDay_refl|reflexivity].
Qed.

(** X17: a toggle on a day whose assignment carries the tag "split", or any
    tag other than "full", "start" and "end", removes that assignment; with
    one assignment per day the day is free afterwards. *)
Theorem toggleDate_removes_last_of_cycle (state : AppState) (day : Date)
        (l1 l2 : list SelectedDay.t) (x : SelectedDay.t) :
  selectedOnCallDates state = l1 ++ x :: l2 ->
  freeDay l1 day -> SelectedDay.date x = day ->
  SelectedDay.type x <> "full"%string ->
  SelectedDay.type x <> "start"%string ->
  SelectedDay.type x <> "end"%string ->
  selectedOnCallDates (toggleDate state day) = l1 ++ l2
  /\ (NoDup (map SelectedDay.date (selectedOnCallDates state)) ->
      freeDay (selectedOnCallDates (toggleDate state day)) day).
Proof.
  intros E Hfree Hx Hf Hs He.
  assert (Hsel : selectedOnCallDates (toggleDate state day) = l1 ++ l2).
  { destruct (toggleDate_cases state day)
      as [[Hn _]|(l1' & x' & l2' & E' & Hn' & Hx' & ->)].
    - exfalso. specialize (Hn x). rewrite E, Hx, isSameDay_refl in Hn.
      discriminate Hn. apply in_or_app. right. now left.
    - rewrite E in E'.
      assert (Hl : l1 = l1' /\ x = x' /\ l2 = l2').
      { clear - E' Hfree Hn' Hx Hx'. revert l1' E' Hn'.
        induction l1 as [|a l1 IH]; intros [|a' l1'] E' Hn'.
        - injection E' as -> ->. auto.
        - injection E' as -> ->. exfalso.
          specialize (Hn' a' (or_introl eq_refl)).
          rewrite Hx, isSameDay_refl in Hn'. discriminate.
        - injection E' as -> <-. exfalso.
          specialize (Hfree x' (or_introl eq_refl)).
          rewrite Hx', isSameDay_refl in Hfree. discriminate.
        - injection E' as -> E'.
          destruct (IH (fun d Hd => Hfree d (or_intror Hd)) l1' E'
                       (fun d Hd => Hn' d (or_intror Hd))) as (-> & -> & ->).
          auto. }
      destruct Hl as (<- & <- & <-). unfold nextAssignment.
      destruct (String.eqb_spec (SelectedDay.type x) "full"); [contradiction|].
      destruct (String.eqb_spec (SelectedDay.type x) "start"); [contradiction|].
      destruct (String.eqb_spec (SelectedDay.type x) "end"); [contradiction|].
      reflexivity. }
  split; [exact Hsel|].
  intros Hnd d Hin. rewrite Hsel in Hin. rewrite E, map_app in Hnd.
  cbn [map] in Hnd. apply NoDup_remove_2 in Hnd.
  destruct (isSameDay (SelectedDay.date d) day) eqn:Ed; [|reflexivity].
  exfalso. apply isSameDay_eq in Ed. apply Hnd. rewrite <- map_app.
  apply in_map_iff. exists d. split; [congruence|exact Hin].
Qed.

Lemma toggleDate_removes_last_of_cycle_witness :
  selectedOnCallDates
    (toggleDate (sampleState None "devops"
                             [SelectedDay.mk saturday "full"; handoffItem] [])
                tuesday)
  = [SelectedDay.mk saturday "full"] ++ [].
Proof.
  apply (toggleDate_removes_last_of_cycle
           (sampleState None "devops"
                        [SelectedDay.mk saturday "full"; handoffItem] [])
           tuesday [SelectedDay.mk saturday "full"] [] handoffItem).
  - reflexivity.
  - intros d [<-|[]]. reflexivity.
  - reflexivity.
  - discriminate.
  - discriminate.
  - discriminate.
Defined.

(** X18: a toggle on a free day adds the standby hours of a Full shift to
    the total: 24 on a weekend or holiday, 16 on a plain weekday. *)
Theorem toggleDate_adds_full_shift_hours (state : AppState) (day : Date) :
  freeDay (selectedOnCallDates state) day ->
  totalStandbyHours (selectedOnCallDates (toggleDate state day))
  == totalStandbyHours (selectedOnCallDates state)
     + (if (isCzechHoliday day || isWeekend day)%bool then 24 else 16).
Proof.
  intros Hfree.
  destruct (toggleDate_cases state day)
    as [[_ ->]|(l1 & x & l2 & E & _ & Hx & _)].
  - unfold totalStandbyHours. rewrite fold_left_app. cbn [fold_left].
    rewrite standbyStep_add. unfold contribution, standbyStep.
    cbn [SelectedDay.type SelectedDay.date String.eqb Ascii.eqb Bool.eqb].
    destruct (isCzechHoliday day || isWeekend day)%bool; ring.
  - exfalso. specialize (Hfree x). rewrite E, Hx, isSameDay_refl in Hfree.
    discriminate Hfree. apply in_or_app. right. now left.
Qed.

Lemma toggleDate_adds_full_shift_hours_witness :
  totalStandbyHours
    (selectedOnCallDates (toggleDate (sampleState None "devops" items40 logs10)
                                     wednesday))
  == totalStandbyHours items40 + 16.
Proof.
  apply (toggleDate_adds_full_shift_hours
           (sampleState None "devops" items40 logs10) wednesday).
  intros d [<-|[<-|[]]]; reflexivity.
Defined.

(** ** Work-log handlers *)

Lemma withWorkLogs_same state : withWorkLogs state (workLogs state) = state.
Proof. now destruct state. Qed.

Lemma filter_all_true {A} (p : A -> bool) l :
  (forall x, In x l -> p x = true) -> filter p l = l.
Proof.
  induction l as [|a l IH]; intros H; [reflexivity|]. cbn [filter].
  rewrite (H a (or_introl eq_refl)). f_equal. apply IH.
  intros x Hx. apply H. now right.
Qed.

(** X19: adding a work log and then removing the log with the new
    identifier restores the state, provided no earlier log carries that
    identifier; a log that does is removed with it. *)
Theorem addWorkLog_removeWorkLog (state : AppState) (newId : string) (now : Date) :
  (forall log, In log (workLogs state) -> WorkLog.id log <> newId) ->
  removeWorkLog (addWorkLog state newId now) newId = state.
Proof.
  intros Hfresh. unfold removeWorkLog, addWorkLog.
  cbn [withWorkLogs workLogs]. rewrite filter_app. cbn [filter WorkLog.id].
  rewrite String.eqb_refl. cbn [negb]. rewrite app_nil_r.
  rewrite filter_all_true.
  - change (withWorkLogs state (workLogs state) = state).
    apply withWorkLogs_same.
  - intros log Hin. apply negb_true_iff, String.eqb_neq. now apply Hfresh.
Qed.

Lemma addWorkLog_removeWorkLog_witness :
  removeWorkLog (addWorkLog (sampleState None "devops" items40 logs50) "z" tuesday) "z"
  = sampleState None "devops" items40 logs50.
Proof.
  apply (addWorkLog_removeWorkLog (sampleState None "devops" items40 logs50)).
  intros log [<-|[<-|[]]]; discriminate.
Defined.

(** X20: a newly added work log has 0 hours, so adding one changes no
    figure of the result, whatever its date. *)
Theorem addWorkLog_keeps_result (state : AppState) (newId : string) (now : Date) :
  Result_eq (calculation (addWorkLog state newId now)) (calculation state).
Proof.
  apply Result_eq_by_sums; try reflexivity;
    cbn [addWorkLog withWorkLogs workLogs].
  - unfold spec_totalWorkedDuration.
    rewrite <- (sumQ_Permutation _ _
      (Permutation_map WorkLog.hours
         (Permutation_cons_append (workLogs state) (WorkLog.mk newId now 0 false)))).
    cbn [map WorkLog.hours]. rewrite sumQ_cons. ring.
  - unfold spec_workNormal.
    rewrite <- (sumQ_filter_Permutation _ WorkLog.hours _ _
      (Permutation_cons_append (workLogs state) (WorkLog.mk newId now 0 false))).
    cbn [filter]. destruct (negb _); cbn [map WorkLog.hours];
      rewrite ?sumQ_cons; ring.
  - unfold spec_workHoliday.
    rewrite <- (sumQ_filter_Permutation _ WorkLog.hours _ _
      (Permutation_cons_append (workLogs state) (WorkLog.mk newId now 0 false))).
    cbn [filter]. destruct (spec_isHolidayLog _); cbn [map WorkLog.hours];
      rewrite ?sumQ_cons; ring.
Qed.

Lemma updateWorkLog_hours state id u :
  (forall h, u <> SetHours h) ->
  map WorkLog.hours (workLogs (updateWorkLog state id u))
  = map WorkLog.hours (workLogs state).
Proof.
  intros Hu. unfold updateWorkLog. cbn [withWorkLogs workLogs].
  rewrite map_map. apply map_ext. intros log.
  destruct (String.eqb (WorkLog.id log) id); [|reflexivity].
  destruct u; try reflexivity. exfalso. now apply (Hu value).
Qed.

(** X21: an update of the identifier, the date or the holiday flag of work
    logs changes neither the paid standby hours nor the standby fee nor the
    number of logs; for logged hours that are multiples of one half the two
    overtime counters keep their sum: hours only move between the normal
    and the holiday counter. *)
Theorem updateWorkLog_keeps_standby (state : AppState) (id : string)
        (u : WorkLogUpdate) :
  (forall h, u <> SetHours h) ->
  let r := calculation state in
  let r' := calculation (updateWorkLog state id u) in
  Result.paidStandbyHours r' == Result.paidStandbyHours r
  /\ Result.onCallFee r' == Result.onCallFee r
  /\ (halfHourLogs (workLogs state) ->
      Result.totalWorkNormal r' + Result.totalWorkHoliday r'
      == Result.totalWorkNormal r + Result.totalWorkHoliday r)
  /\ List.length (workLogs (updateWorkLog state id u))
     = List.length (workLogs state).
Proof.
  intros Hu. cbv zeta.
  destruct (calculation_by_sums state) as (Hp & Hn & Hh & Hf & _).
  destruct (calculation_by_sums (updateWorkLog state id u))
    as (Hp' & Hn' & Hh' & Hf' & _).
  change (hourlyWage (updateWorkLog state id u)) with (hourlyWage state) in *.
  change (rates (updateWorkLog state id u)) with (rates state) in *.
  assert (Ep : Result.paidStandbyHours (calculation (updateWorkLog state id u))
               == Result.paidStandbyHours (calculation state)).
  { rewrite Hp, Hp'. unfold spec_totalWorkedDuration.
    rewrite (updateWorkLog_hours state id u Hu). reflexivity. }
  split; [exact Ep|]. split; [rewrite Hf, Hf', Ep; reflexivity|]. split.
  - intros _. rewrite Hn, Hh, Hn', Hh', !spec_work_partition.
    unfold spec_totalWorkedDuration.
    now rewrite (updateWorkLog_hours state id u Hu).
  - unfold updateWorkLog. cbn [withWorkLogs workLogs]. apply length_map.
Qed.

Lemma updateWorkLog_keeps_standby_witness :
  Result.paidStandbyHours
    (calculation (updateWorkLog (sampleState None "devops" items40 logs10) "a"
                                (SetDate easterMonday2024)))
  == Result.paidStandbyHours (calculation (sampleState None "devops" items40 logs10))
  /\ Result.totalWorkNormal
       (calculation (updateWorkLog (sampleState None "devops" items40 logs10) "a"
                                   (SetDate easterMonday2024)))
     + Result.totalWorkHoliday
         (calculation (updateWorkLog (sampleState None "devops" items40 logs10) "a"
                                     (SetDate easterMonday2024)))
     == Result.totalWorkNormal (calculation (sampleState None "devops" items40 logs10))
        + Result.totalWorkHoliday
            (calculation (sampleState None "devops" items40 logs10)).
Proof.
  pose proof (updateWorkLog_keeps_standby
                (sampleState None "devops" items40 logs10) "a"
                (SetDate easterMonday2024)
                ltac:(intros h; discriminate)) as H.
  cbv zeta in H. destruct H as (Hp & _ & Hs & _).
  split; [exact Hp|exact (Hs halfHourLogs_logs10)].
Defined.




Lemma remove_splits_hours id logs :
  spec_totalWorkedDuration logs
  == spec_totalWorkedDuration
       (filter (fun l => negb (String.eqb (WorkLog.id l) id)) logs)
     + sumQ (map WorkLog.hours
                 (filter (fun l => String.eqb (WorkLog.id l) id) logs)).
Proof.
  unfold spec_totalWorkedDuration.
  induction logs as [|log logs IH]; [reflexivity|]. cbn [filter map].
  destruct (String.eqb (WorkLog.id log) id); cbn [negb map];
    rewrite !sumQ_cons, IH; ring.
Qed.

(** X23: removing a work log keeps exactly the logs whose identifier
    differs from the given one, in their order and number, so that no log
    with the identifier remains and a state without such a log is returned
    as it is; with non-negative hours the logged total does not grow and
    the paid standby hours do not decrease. *)
Theorem removeWorkLog_effect (state : AppState) (id : string) :
  workLogs (removeWorkLog state id)
  = filter (fun log => if string_dec (WorkLog.id log) id then false else true)
           (workLogs state)
  /\ Forall (fun log => WorkLog.id log <> id) (workLogs (removeWorkLog state id))
  /\ (Forall (fun log => WorkLog.id log <> id) (workLogs state) ->
      removeWorkLog state id = state)
  /\ (nonNegativeHours (workLogs state) ->
      sumQ (map WorkLog.hours (workLogs (removeWorkLog state id)))
      <= sumQ (map WorkLog.hours (workLogs state))
      /\ Result.paidStandbyHours (calculation state)
         <= Result.paidStandbyHours (calculation (removeWorkLog state id))).
Proof.
  split; [|split; [|split]].
  - unfold removeWorkLog. cbn [withWorkLogs workLogs]. apply filter_ext.
    intros log. destruct (string_dec (WorkLog.id log) id) as [E|E].
    + apply negb_false_iff. now apply String.eqb_eq.
    + apply negb_true_iff. now apply String.eqb_neq.
  - apply Forall_forall. intros log Hin. unfold removeWorkLog in Hin.
    cbn [withWorkLogs workLogs] in Hin. apply filter_In in Hin.
    destruct Hin as [_ H]. apply negb_true_iff in H. now apply String.eqb_neq.
  - intros Hno. unfold removeWorkLog. rewrite filter_all_true.
    + apply withWorkLogs_same.
    + intros log Hin. rewrite Forall_forall in Hno.
      apply negb_true_iff, String.eqb_neq. now apply Hno.
  - intros Hl.
    assert (Hrem : 0 <= sumQ (map WorkLog.hours
                                  (filter (fun l => String.eqb (WorkLog.id l) id)
                                          (workLogs state)))).
    { apply sumQ_nonneg. apply Forall_forall. intros q Hq.
      apply in_map_iff in Hq. destruct Hq as (log & <- & Hin).
      apply filter_In in Hin. destruct Hin as [Hin _].
      unfold nonNegativeHours in Hl. rewrite Forall_forall in Hl. now apply Hl. }
    pose proof (remove_splits_hours id (workLogs state)) as Hsplit.
    unfold spec_totalWorkedDuration in Hsplit.
    split.
    + cbn [removeWorkLog withWorkLogs workLogs]. lra.
    + destruct (calculation_by_sums state) as (Hp & _).
      destruct (calculation_by_sums (removeWorkLog state id)) as (Hp' & _).
      rewrite Hp, Hp'. cbn [removeWorkLog withWorkLogs workLogs selectedOnCallDates].
      apply Q.max_le_compat_l. unfold spec_totalWorkedDuration. lra.
Qed.

Lemma removeWorkLog_effect_witness :
  removeWorkLog (sampleState None "devops" items40 logs50) "z"
  = sampleState None "devops" items40 logs50
  /\ Result.paidStandbyHours (calculation (sampleState None "devops" items40 logs50))
     <= Result.paidStandbyHours
          (calculation (removeWorkLog (sampleState None "devops" items40 logs50) "a")).
Proof.
  split.
  - apply (proj1 (proj2 (proj2 (removeWorkLog_effect
                                  (sampleState None "devops" items40 logs50) "z")))).
    apply Forall_cons; [discriminate|].
    apply Forall_cons; [discriminate|apply Forall_nil].
  - apply (proj2 (proj2 (proj2 (removeWorkLog_effect
                                  (sampleState None "devops" items40 logs50) "a")))).
    apply Forall_cons; [discriminate|].
    apply Forall_cons; [discriminate|apply Forall_nil].
Defined.

(** ** Calendar grid *)

Local Open Scope Z_scope.

Lemma nth_error_dayNumbers n j d :
  nth_error (dayNumbers n) j = Some d -> d = Z.of_nat j + 1.
Proof.
  unfold dayNumbers. rewrite nth_error_map.
  destruct (nth_error (seq 1 (Z.to_nat n)) j) as [i|] eqn:E; [|discriminate].
  cbn [option_map]. intros H. injection H as <-.
  assert (Hlen : (j < List.length (seq 1 (Z.to_nat n)))%nat)
    by (apply nth_error_Some; congruence).
  rewrite length_seq in Hlen.
  apply (nth_error_nth _ _ 0%nat) in E. rewrite seq_nth in E by assumption. lia.
Qed.

Lemma nth_error_map_Some {A B} (f : A -> B) l j y :
  nth_error (map f l) j = Some y -> exists x, nth_error l j = Some x /\ f x = y.
Proof.
  rewrite nth_error_map. destruct (nth_error l j) as [x|]; [|discriminate].
  cbn [option_map]. intros H. injection H as <-. now exists x.
Qed.

Lemma calendarOffset_eq state :
  calendarOffset state
  = Some (let w := getDay (startOfMonth (selectedDate state)) in
          if w =? 0 then 6 else w - 1).
Proof.
  unfold calendarOffset. cbv zeta. rewrite eachDayOfInterval_month.
  unfold spec_daysOfMonth.
  pose proof (daysInMonth_bounds (getFullYear (selectedDate state))
                                 (getMonth (selectedDate state))) as Hdim.
  destruct (dayNumbers (daysInMonth (getFullYear (selectedDate state))
                                    (getMonth (selectedDate state))))
    as [|d1 rest] eqn:Hdn.
  - exfalso. apply (f_equal (@List.length Z)) in Hdn.
    unfold dayNumbers in Hdn. rewrite length_map, length_seq in Hdn.
    cbn in Hdn. lia.
  - assert (Hd1 : d1 = 1)
      by (apply (nth_error_dayNumbers
                   (daysInMonth (getFullYear (selectedDate state))
                                (getMonth (selectedDate state))) 0%nat);
          rewrite Hdn; reflexivity).
    subst d1. reflexivity.
Qed.

Lemma nth_error_dayNumbers_at n d :
  1 <= d <= n -> nth_error (dayNumbers n) (Z.to_nat (d - 1)) = Some d.
Proof.
  intros Hd. unfold dayNumbers. rewrite nth_error_map.
  rewrite nth_error_seq.
  destruct (Nat.ltb_spec (Z.to_nat (d - 1)) (Z.to_nat n)) as [_|H]; [|lia].
  cbn [option_map]. f_equal. lia.
Qed.

(** X24: for a selected month within the range of [Date], the calendar
    grid is aligned: it consists of 0 to 6 empty cells followed by the days
    1 to n of the month in order, one cell each, and every day stands in
    the column of its own weekday, the seven columns running from Monday to
    Sunday. *)
Theorem calendar_days_in_weekday_columns (state : AppState) :
  monthInDateRange (selectedDate state) = true ->
  let y := getFullYear (selectedDate state) in
  let m := getMonth (selectedDate state) in
  let offset := (getDay (mkRawDate y m 1) + 6) mod 7 in
  calendarOffset state = Some offset
  /\ 0 <= offset <= 6
  /\ calendarCells state
     = repeat None (Z.to_nat offset)
       ++ map (fun d => Some (mkRawDate y m d)) (spec_daysOfMonth y m)
  /\ (forall i, (i < Z.to_nat offset)%nat ->
                nth_error (calendarCells state) i = Some None)
  /\ (forall d, 1 <= d <= daysInMonth y m ->
        nth_error (calendarCells state) (Z.to_nat (offset + d - 1))
        = Some (Some (mkRawDate y m d))
        /\ (offset + d - 1) mod 7 = (getDay (mkRawDate y m d) + 6) mod 7)
  /\ Z.of_nat (List.length (calendarCells state)) = offset + daysInMonth y m.
Proof.
  intros _. cbv zeta.
  set (y := getFullYear (selectedDate state)).
  set (m := getMonth (selectedDate state)).
  set (w := getDay (mkRawDate y m 1)).
  assert (Hw : 0 <= w < 7) by (unfold w, getDay; apply Z.mod_pos_bound; lia).
  assert (Hk : (if w =? 0 then 6 else w - 1) = (w + 6) mod 7).
  { destruct (Z.eqb_spec w 0) as [->|Hne]; [reflexivity|].
    Z.div_mod_to_equations. lia. }
  assert (Hoff : calendarOffset state = Some ((w + 6) mod 7)).
  { rewrite calendarOffset_eq. cbv zeta. unfold startOfMonth.
    fold y. fold m. fold w. now rewrite Hk. }
  assert (Hrange : 0 <= (w + 6) mod 7 <= 6)
    by (pose proof (Z.mod_pos_bound (w + 6) 7 ltac:(lia)); lia).
  assert (Hcells : calendarCells state
                   = repeat None (Z.to_nat ((w + 6) mod 7))
                     ++ map (fun d => Some (mkRawDate y m d)) (spec_daysOfMonth y m)).
  { unfold calendarCells. cbv zeta. rewrite Hoff, eachDayOfInterval_month.
    fold y. fold m. now rewrite map_map. }
  pose proof (daysInMonth_bounds y m) as Hdim.
  split; [exact Hoff|]. split; [exact Hrange|]. split; [exact Hcells|].
  rewrite Hcells. split; [|split].
  - intros i Hi. rewrite nth_error_app1 by (now rewrite repeat_length).
    now apply nth_error_repeat.
  - intros d Hd. split.
    + rewrite nth_error_app2 by (rewrite repeat_length; lia).
      rewrite repeat_length, nth_error_map. unfold spec_daysOfMonth.
      replace (Z.to_nat ((w + 6) mod 7 + d - 1) - Z.to_nat ((w + 6) mod 7))%nat
        with (Z.to_nat (d - 1)) by lia.
      now rewrite nth_error_dayNumbers_at.
    + rewrite getDay_same_month. fold w. Z.div_mod_to_equations. lia.
  - rewrite length_app, repeat_length, length_map.
    unfold spec_daysOfMonth, dayNumbers. rewrite length_map, length_seq. lia.
Qed.

Lemma calendar_days_in_weekday_columns_witness :
  nth_error (calendarCells (sampleState None "devops" items40 logs10))
            (Z.to_nat ((getDay (mkRawDate 2024 3 1) + 6) mod 7 + 9 - 1))
  = Some (Some (mkRawDate 2024 3 9))
  /\ ((getDay (mkRawDate 2024 3 1) + 6) mod 7 + 9 - 1) mod 7
     = (getDay (mkRawDate 2024 3 9) + 6) mod 7.
Proof.
  pose proof (calendar_days_in_weekday_columns
                (sampleState None "devops" items40 logs10) eq_refl) as H.
  cbv zeta in H. destruct H as (_ & _ & _ & _ & H & _).
  apply (H 9). vm_compute. split; discriminate.
Defined.

(** ** Cell colours *)

Local Open Scope Q_scope.

(** X25: the colour of a selected day tells the standby hours charged for
    its assignment (the first one of the day): teal 15 or 7, orange 9, rose
    16, purple and blue 24, slate 16; a day without assignment is red when
    it is a holiday and plain otherwise. *)
Theorem cellStyle_matches_hours (state : AppState) (day : Date) :
  (forall x, cellSelection state day = Some x ->
     In x (selectedOnCallDates state) /\ SelectedDay.date x = day
     /\ match cellStyle state day with
        | StyleTeal =>
            contribution x
            == (if (isCzechHoliday day || isWeekend day)%bool then 15 else 7)
        | StyleOrange => contribution x == 9
        | StyleRose => contribution x == 16
        | StylePurple => contribution x == 24 /\ isCzechHoliday day = true
        | StyleBlue => contribution x == 24 /\ isWeekend day = true
        | StyleSlate => contribution x == 16
        | StyleRed | StyleDefault => False
        end)
  /\ (cellSelection state day = None ->
      freeDay (selectedOnCallDates state) day
      /\ cellStyle state day
         = if isCzechHoliday day then StyleRed else StyleDefault).
Proof.
  split.
  - intros x Hx. unfold cellStyle. rewrite Hx.
    unfold cellSelection in Hx. apply find_some in Hx. destruct Hx as [Hin Hd].
    apply isSameDay_eq in Hd. split; [exact Hin|]. split; [exact Hd|].
    unfold contribution, standbyStep. rewrite Hd.
    destruct (String.eqb (SelectedDay.type x) "start").
    { destruct (isCzechHoliday day || isWeekend day)%bool; reflexivity. }
    destruct (String.eqb (SelectedDay.type x) "end"); [reflexivity|].
    destruct (String.eqb (SelectedDay.type x) "split"); [reflexivity|].
    destruct (isCzechHoliday day); cbn [orb]; [split; reflexivity|].
    destruct (isWeekend day); [split; reflexivity|reflexivity].
  - intros Hn. unfold cellStyle. rewrite Hn. split; [|reflexivity].
    intros d Hin. unfold cellSelection in Hn.
    exact (find_none _ _ Hn d Hin).
Qed.

Lemma cellStyle_matches_hours_witness :
  cellStyle (sampleState None "devops" items40 logs10) saturday = StyleBlue
  /\ contribution (SelectedDay.mk saturday "full") == 24.
Proof.
  split; [reflexivity|].
  pose proof (proj1 (cellStyle_matches_hours
                       (sampleState None "devops" items40 logs10) saturday)
                    (SelectedDay.mk saturday "full") eq_refl) as H.
  destruct H as (_ & _ & H). exact (proj1 H).
Defined.

(** ** Migration of the stored assignments *)

Local Open Scope Q_scope.

(** X26: the migration turns an array of bare date strings into Full
    assignments of the same dates in the same order, worth 24 or 16 standby
    hours each; it looks at the first element only: an array that starts
    with an object is left as it is, so a second run changes nothing, while
    in an array that starts with a string an element that is already an
    object is wrapped again and no longer denotes an assignment. *)
Theorem migrate_legacy_dates :
  (forall dates,
      map asSelectedDay (migrate (map StoredString dates))
      = map (fun d => Some (SelectedDay.mk d "full")) dates
      /\ totalStandbyHours (map (fun d => SelectedDay.mk d "full") dates)
         == sumQ (map (fun d => if (isCzechHoliday d || isWeekend d)%bool
                                then 24 else 16) dates))
  /\ (forall date type rest,
        migrate (StoredObject date type :: rest) = StoredObject date type :: rest)
  /\ (forall stored, migrate (migrate stored) = migrate stored)
  /\ (forall d rest date type,
        In (StoredObject date type) rest ->
        In None (map asSelectedDay (migrate (StoredString d :: rest)))).
Proof.
  split; [|split; [reflexivity|split]].
  - intros dates. split.
    + destruct dates as [|d dates]; [reflexivity|].
      cbn [map migrate]. rewrite !map_map. reflexivity.
    + rewrite totalStandbyHours_sum, map_map.
      induction dates as [|d dates IH]; [reflexivity|].
      cbn [map]. rewrite !sumQ_cons, IH.
      unfold contribution, standbyStep.
      cbn [SelectedDay.type SelectedDay.date String.eqb Ascii.eqb Bool.eqb].
      destruct (isCzechHoliday d || isWeekend d)%bool; ring.
  - intros [|[d|date type] rest]; reflexivity.
  - intros d rest date type Hin. cbn [migrate].
    rewrite map_map. apply in_map_iff.
    exists (StoredObject date type). split; [reflexivity|now right].
Qed.

Lemma migrate_legacy_dates_witness :
  In None (map asSelectedDay
               (migrate [StoredString tuesday;
                         StoredObject (StoredString saturday) "full"])).
Proof.
  apply (proj2 (proj2 (proj2 migrate_legacy_dates)) tuesday
               [StoredObject (StoredString saturday) "full"]
               (StoredString saturday) "full"%string).
  now left.
Defined.

(** ** The earlier variant *)

Lemma legacy_toggleDate_on_last state day sel x :
  selectedOnCallDates state = sel ++ [x] ->
  freeDay sel day -> SelectedDay.date x = day ->
  selectedOnCallDates (Legacy.toggleDate state day)
  = sel ++ (if String.eqb (SelectedDay.type x) "full"
            then [SelectedDay.mk (SelectedDay.date x) "handoff"] else []).
Proof.
  intros E Hfree Hx. unfold Legacy.toggleDate, findIndex.
  cbn [withSelectedOnCallDates selectedOnCallDates].
  destruct (findIndexFrom_split (fun d => isSameDay (SelectedDay.date d) day)
                                (selectedOnCallDates state) 0)
    as [[Hn _]|(l1 & x' & l2 & E' & Hn & Hx' & ->)].
  - exfalso. specialize (Hn x). rewrite E in Hn.
    rewrite Hx, isSameDay_refl in Hn. discriminate Hn.
    apply in_or_app. right. now left.
  - assert (Hl : l1 = sel /\ x' = x /\ l2 = []).
    { rewrite E in E'. destruct l2 as [|z l2].
      - apply app_inj_tail in E'. destruct E' as [-> ->]. auto.
      - exfalso. assert (Hin : In x' sel).
        { assert (H : In x' (removelast (sel ++ [x]))).
          { rewrite E'. rewrite removelast_app by discriminate.
            apply in_or_app. right. cbn. destruct l2; now left. }
          now rewrite removelast_last in H. }
        specialize (Hfree x' Hin). rewrite Hfree in Hx'. discriminate Hx'. }
    destruct Hl as (-> & -> & ->). rewrite E.
    replace (0 <=? 0 + Z.of_nat (List.length sel))%Z with true
      by (symmetry; apply Z.leb_le; lia).
    replace (Z.to_nat (0 + Z.of_nat (List.length sel))) with (List.length sel) by lia.
    rewrite nth_error_middle.
    destruct (String.eqb (SelectedDay.type x) "full");
      [now rewrite setAt_middle|now rewrite spliceOne_middle].
Qed.

(** X27: in the earlier variant the cycle of a day is Full, then Handoff,
    then none: on a free day the third toggle restores the state. *)
Theorem legacy_toggleDate_cycle (state : AppState) (day : Date) :
  freeDay (selectedOnCallDates state) day ->
  let s1 := Legacy.toggleDate state day in
  let s2 := Legacy.toggleDate s1 day in
  selectedOnCallDates s1 = selectedOnCallDates state ++ [SelectedDay.mk day "full"]
  /\ selectedOnCallDates s2
     = selectedOnCallDates state ++ [SelectedDay.mk day "handoff"]
  /\ Legacy.toggleDate s2 day = state.
Proof.
  intros Hfree. cbv zeta.
  assert (H1 : selectedOnCallDates (Legacy.toggleDate state day)
               = selectedOnCallDates state ++ [SelectedDay.mk day "full"]).
  { unfold Legacy.toggleDate, findIndex.
    cbn [withSelectedOnCallDates selectedOnCallDates].
    destruct (findIndexFrom_split (fun d => isSameDay (SelectedDay.date d) day)
                                  (selectedOnCallDates state) 0)
      as [[_ ->]|(l1 & x & l2 & E & _ & Hx & _)]; [reflexivity|].
    exfalso. specialize (Hfree x). rewrite Hfree in Hx; [discriminate Hx|].
    rewrite E. apply in_or_app. right. now left. }
  assert (H2 : selectedOnCallDates (Legacy.toggleDate (Legacy.toggleDate state day) day)
               = selectedOnCallDates state ++ [SelectedDay.mk day "handoff"])
    by exact (legacy_toggleDate_on_last _ day _ _ H1 Hfree eq_refl).
  assert (H3 : selectedOnCallDates
                 (Legacy.toggleDate (Legacy.toggleDate (Legacy.toggleDate state day)
                                                       day) day)
               = selectedOnCallDates state ++ [])
    by exact (legacy_toggleDate_on_last _ day _ _ H2 Hfree eq_refl).
  rewrite app_nil_r in H3.
  split; [exact H1|]. split; [exact H2|].
  change (Legacy.toggleDate (Legacy.toggleDate (Legacy.toggleDate state day) day) day)
    with (withSelectedOnCallDates state
            (selectedOnCallDates
               (Legacy.toggleDate (Legacy.toggleDate (Legacy.toggleDate state day)
                                                     day) day))).
  rewrite H3. apply withSelectedOnCallDates_same.
Qed.

Lemma legacy_toggleDate_cycle_witness :
  Legacy.toggleDate (Legacy.toggleDate (Legacy.toggleDate
    (sampleState None "devops" items40 logs10) wednesday) wednesday) wednesday
  = sampleState None "devops" items40 logs10.
Proof.
  apply (legacy_toggleDate_cycle (sampleState None "devops" items40 logs10) wednesday).
  intros d [<-|[<-|[]]]; reflexivity.
Defined.

Local Open Scope Q_scope.

Lemma legacy_standbyStep_add total item :
  Legacy.standbyStep total item == total + Legacy.standbyStep 0 item.
Proof.
  unfold Legacy.standbyStep.
  destruct (String.eqb (SelectedDay.type item) "handoff"); [ring|].
  destruct (isCzechHoliday _ || isWeekend _)%bool; ring.
Qed.

Lemma legacy_fold_left_standbyStep items : forall total,
  fold_left Legacy.standbyStep items total
  == total + sumQ (map (Legacy.standbyStep 0) items).
Proof.
  induction items as [|item items IH]; intros total; cbn [fold_left map].
  - cbn. ring.
  - rewrite sumQ_cons, IH, legacy_standbyStep_add. ring.
Qed.

(** X28: for assignments saved by the earlier variant (tags "full" and
    "handoff"), the current engine gives the same standby total as the
    earlier one once "handoff" is renamed to "end"; on the data as saved it
    counts each handoff as a Full shift and so never gives less, and gives
    the same when there is no handoff. *)
Theorem legacy_standby_hours (items : list SelectedDay.t) :
  legacyTags items ->
  totalStandbyHours (map renameHandoff items) == Legacy.totalStandbyHours items
  /\ Legacy.totalStandbyHours items <= totalStandbyHours items
  /\ (Forall (fun item => SelectedDay.type item = "full"%string) items ->
      totalStandbyHours items == Legacy.totalStandbyHours items).
Proof.
  intros Htags. unfold Legacy.totalStandbyHours.
  rewrite !totalStandbyHours_sum, legacy_fold_left_standbyStep.
  unfold legacyTags in Htags.
  induction Htags as [|item items Hitem _ IH]; [repeat split; discriminate|].
  destruct IH as (IH1 & IH2 & IH3). cbn [map]. rewrite !sumQ_cons.
  assert (Hc : contribution (renameHandoff item) == Legacy.standbyStep 0 item
               /\ Legacy.standbyStep 0 item <= contribution item
               /\ (SelectedDay.type item = "full"%string ->
                   contribution item == Legacy.standbyStep 0 item)).
  { unfold contribution, standbyStep, Legacy.standbyStep, renameHandoff.
    destruct Hitem as [E|E]; rewrite E;
      cbn [String.eqb Ascii.eqb Bool.eqb SelectedDay.type SelectedDay.date];
      try rewrite E; cbn [String.eqb Ascii.eqb Bool.eqb];
      destruct (isCzechHoliday _ || isWeekend _)%bool;
      (split; [reflexivity|split; [discriminate|intros H; try reflexivity;
                                                 discriminate H]]). }
  destruct Hc as (Hc1 & Hc2 & Hc3).
  split; [rewrite IH1, Hc1; lra|]. split; [lra|].
  intros Hfull. inversion Hfull as [|? ? Hf Hrest]; subst.
  rewrite (Hc3 Hf). specialize (IH3 Hrest). lra.
Qed.

Lemma legacy_standby_hours_witness :
  totalStandbyHours (map renameHandoff [SelectedDay.mk saturday "full"; handoffItem])
  == Legacy.totalStandbyHours [SelectedDay.mk saturday "full"; handoffItem].
Proof.
  apply (legacy_standby_hours [SelectedDay.mk saturday "full"; handoffItem]).
  apply Forall_cons; [now left|].
  apply Forall_cons; [now right|apply Forall_nil].
Defined.

(** ** Profile and salary *)

(** X29: the two fixed profiles pay the same overtime; the standby fee of
    "devops" is twice that of "other", so with a non-negative salary the
    bonus under "devops" is never below the bonus under "other". *)
Theorem devops_doubles_standby_fee (state : AppState) :
  let d := calculation (setProfile state "devops") in
  let o := calculation (setProfile state "other") in
  Result.onCallFee d == 2 * Result.onCallFee o
  /\ Result.overtimeNormalPay d = Result.overtimeNormalPay o
  /\ Result.overtimeHolidayPay d = Result.overtimeHolidayPay o
  /\ (0 <= monthlySalary state -> Result.totalExtra o <= Result.totalExtra d).
Proof.
  cbv zeta.
  destruct (calculation_by_sums (setProfile state "devops"))
    as (Hp & _ & _ & Hf & Hon & Hoh & Ht & _).
  destruct (calculation_by_sums (setProfile state "other"))
    as (Hp' & _ & _ & Hf' & Hon' & Hoh' & Ht' & _).
  change (hourlyWage (setProfile state "devops")) with (hourlyWage state) in *.
  change (hourlyWage (setProfile state "other")) with (hourlyWage state) in *.
  change (rates (setProfile state "devops")) with (mkRates 0.2 0.5 1.5) in *.
  change (rates (setProfile state "other")) with (mkRates 0.1 0.5 1.5) in *.
  cbn [onCall otNormal otHoliday] in *.
  assert (Ep : Result.paidStandbyHours (calculation (setProfile state "devops"))
               = Result.paidStandbyHours (calculation (setProfile state "other")))
    by reflexivity.
  assert (Ef : Result.onCallFee (calculation (setProfile state "devops"))
               == 2 * Result.onCallFee (calculation (setProfile state "other"))).
  { rewrite Hf, Hf', Ep. ring. }
  split; [exact Ef|]. split; [reflexivity|]. split; [reflexivity|].
  intros Hs.
  assert (H0 : 0 <= Result.onCallFee (calculation (setProfile state "other"))).
  { rewrite Hf'. repeat apply Qmult_le_0_compat.
    - rewrite Hp'. apply Q.le_max_l.
    - now apply hourlyWage_nonneg.
    - discriminate. }
  rewrite Ht, Ht', Ef.
  change (Result.overtimeNormalPay (calculation (setProfile state "devops")))
    with (Result.overtimeNormalPay (calculation (setProfile state "other"))).
  change (Result.overtimeHolidayPay (calculation (setProfile state "devops")))
    with (Result.overtimeHolidayPay (calculation (setProfile state "other"))).
  lra.
Qed.

Lemma devops_doubles_standby_fee_witness :
  Result.totalExtra
    (calculation (setProfile (sampleState None "custom" items40 logs10) "other"))
  <= Result.totalExtra
       (calculation (setProfile (sampleState None "custom" items40 logs10) "devops")).
Proof.
  apply (devops_doubles_standby_fee (sampleState None "custom" items40 logs10)).
  discriminate.
Defined.

Lemma hourlyWage_scales state c :
  hourlyWage (setMonthlySalary state (c * monthlySalary state))
  == c * hourlyWage state.
Proof.
  unfold hourlyWage.
  change (effectiveMonthlyHours (setMonthlySalary state (c * monthlySalary state)))
    with (effectiveMonthlyHours state).
  cbn [setMonthlySalary monthlySalary].
  destruct (Qgtb (effectiveMonthlyHours state) 0); [|ring].
  unfold Qdiv. ring.
Qed.

Lemma hourlyWage_monotone state salary' :
  monthlySalary state <= salary' ->
  hourlyWage state <= hourlyWage (setMonthlySalary state salary').
Proof.
  intros Hs. unfold hourlyWage.
  change (effectiveMonthlyHours (setMonthlySalary state salary'))
    with (effectiveMonthlyHours state).
  cbn [setMonthlySalary monthlySalary]. unfold Qgtb.
  destruct (Qle_bool (effectiveMonthlyHours state) 0) eqn:E; cbn [negb];
    [apply Qle_refl|].
  assert (Hpos : 0 < effectiveMonthlyHours state).
  { apply Qnot_le_lt. intros H. apply Qle_bool_iff in H. congruence. }
  unfold Qdiv. apply Qmult_le_compat_r; [assumption|].
  apply Qinv_le_0_compat. now apply Qlt_le_weak.
Qed.

(** X30: a higher salary never lowers a pay figure: with non-negative
    rates and non-negative logged hours, the wage, the standby fee, the two
    overtime amounts and the total bonus do not decrease when the salary is
    raised, and the three hour counters stay as they are; doubling the
    salary doubles the wage, the three amounts and the total. *)
Theorem pay_monotone_in_salary (state : AppState) (salary' : Q) :
  let r := calculation state in
  let r' := calculation (setMonthlySalary state salary') in
  let r2 := calculation (setMonthlySalary state (2 * monthlySalary state)) in
  (monthlySalary state <= salary' ->
   0 <= onCall (rates state) -> 0 <= otNormal (rates state) ->
   0 <= otHoliday (rates state) -> nonNegativeHours (workLogs state) ->
   Result.hourlyWage r <= Result.hourlyWage r'
   /\ Result.onCallFee r <= Result.onCallFee r'
   /\ Result.overtimeNormalPay r <= Result.overtimeNormalPay r'
   /\ Result.overtimeHolidayPay r <= Result.overtimeHolidayPay r'
   /\ Result.totalExtra r <= Result.totalExtra r')
  /\ (Result.paidStandbyHours r' = Result.paidStandbyHours r
      /\ Result.totalWorkNormal r' = Result.totalWorkNormal r
      /\ Result.totalWorkHoliday r' = Result.totalWorkHoliday r)
  /\ (Result.hourlyWage r2 == 2 * Result.hourlyWage r
      /\ Result.onCallFee r2 == 2 * Result.onCallFee r
      /\ Result.overtimeNormalPay r2 == 2 * Result.overtimeNormalPay r
      /\ Result.overtimeHolidayPay r2 == 2 * Result.overtimeHolidayPay r
      /\ Result.totalExtra r2 == 2 * Result.totalExtra r).
Proof.
  cbv zeta. split; [|split; [repeat split|]].
  - intros Hs Hc Hn Hh Hl.
    set (state' := setMonthlySalary state salary').
    destruct (calculation_by_sums state) as (Ep & En & Eh & Hf & Hon & Hoh & Ht & Hw).
    destruct (calculation_by_sums state')
      as (_ & _ & _ & Hf' & Hon' & Hoh' & Ht' & Hw').
    change (rates state') with (rates state) in *.
    change (Result.paidStandbyHours (calculation state'))
      with (Result.paidStandbyHours (calculation state)) in *.
    change (Result.totalWorkNormal (calculation state'))
      with (Result.totalWorkNormal (calculation state)) in *.
    change (Result.totalWorkHoliday (calculation state'))
      with (Result.totalWorkHoliday (calculation state)) in *.
    pose proof (hourlyWage_monotone state salary' Hs) as Hm. fold state' in Hm.
    destruct (worked_nonneg _ Hl) as (_ & Hwn & Hwh).
    assert (Hp : 0 <= Result.paidStandbyHours (calculation state))
      by (rewrite Ep; apply Q.le_max_l).
    assert (H1 : Result.onCallFee (calculation state)
                 <= Result.onCallFee (calculation state')).
    { rewrite Hf, Hf'. apply Qmult_le_compat_r; [|assumption].
      rewrite !(Qmult_comm (Result.paidStandbyHours (calculation state))).
      now apply Qmult_le_compat_r. }
    assert (H2 : Result.overtimeNormalPay (calculation state)
                 <= Result.overtimeNormalPay (calculation state')).
    { rewrite Hon, Hon'. apply Qmult_le_compat_r; [|lra].
      rewrite !(Qmult_comm (Result.totalWorkNormal (calculation state))).
      apply Qmult_le_compat_r; [assumption|]. now rewrite En. }
    assert (H3 : Result.overtimeHolidayPay (calculation state)
                 <= Result.overtimeHolidayPay (calculation state')).
    { rewrite Hoh, Hoh'. apply Qmult_le_compat_r; [|lra].
      rewrite !(Qmult_comm (Result.totalWorkHoliday (calculation state))).
      apply Qmult_le_compat_r; [assumption|]. now rewrite Eh. }
    split; [rewrite Hw, Hw'; exact Hm|].
    split; [exact H1|]. split; [exact H2|]. split; [exact H3|].
    rewrite Ht, Ht'. lra.
  - set (state2 := setMonthlySalary state (2 * monthlySalary state)).
    destruct (calculation_by_sums state) as (_ & _ & _ & Hf & Hon & Hoh & Ht & Hw).
    destruct (calculation_by_sums state2)
      as (_ & _ & _ & Hf' & Hon' & Hoh' & Ht' & Hw').
    change (rates state2) with (rates state) in *.
    pose proof (hourlyWage_scales state 2) as Hs. fold state2 in Hs.
    change (Result.paidStandbyHours (calculation state2))
      with (Result.paidStandbyHours (calculation state)) in *.
    change (Result.totalWorkNormal (calculation state2))
      with (Result.totalWorkNormal (calculation state)) in *.
    change (Result.totalWorkHoliday (calculation state2))
      with (Result.totalWorkHoliday (calculation state)) in *.
    assert (E1 : Result.onCallFee (calculation state2)
                 == 2 * Result.onCallFee (calculation state))
      by (rewrite Hf, Hf', Hs; ring).
    assert (E2 : Result.overtimeNormalPay (calculation state2)
                 == 2 * Result.overtimeNormalPay (calculation state))
      by (rewrite Hon, Hon', Hs; ring).
    assert (E3 : Result.overtimeHolidayPay (calculation state2)
                 == 2 * Result.overtimeHolidayPay (calculation state))
      by (rewrite Hoh, Hoh', Hs; ring).
    split; [rewrite Hw, Hw'; exact Hs|].
    split; [exact E1|]. split; [exact E2|]. split; [exact E3|].
    rewrite Ht, Ht', E1, E2, E3. ring.
Qed.

Lemma pay_monotone_in_salary_witness :
  Result.totalExtra (calculation (sampleState None "devops" items40 logs50))
  <= Result.totalExtra
       (calculation (setMonthlySalary (sampleState None "devops" items40 logs50)
                                      90000)).
Proof.
  pose proof (pay_monotone_in_salary
                (sampleState None "devops" items40 logs50) 90000) as H.
  cbv zeta in H. destruct H as (H & _).
  apply H.
  - discriminate.
  - discriminate.
  - discriminate.
  - discriminate.
  - apply Forall_cons; [discriminate|].
    apply Forall_cons; [discriminate|apply Forall_nil].
Defined.
